(** * Customer churn analysis: the synthetic customer generator

    A shallow embedding of [generate_outputs.py]: the table of synthetic
    customers (lines 32-72), its export (lines 75-76) and the two later
    assignments to the table made while plotting (lines 159 and 177).

    Numbers.  The script computes in binary64.  Every finite binary64 value
    is a rational, so sampled values are kept in [Q]; [clip] and
    [astype(int)] are exact on them.  Sums, products and [round] are taken
    in exact rational arithmetic, and [np.exp] is the real exponential: this
    is the arithmetic the specification reasons in.  The logit of lines
    60-66 uses only [+] and [*], so it is also evaluated in binary64 itself
    (primitive floats), through the same definition. *)

From Stdlib Require Import ZArith QArith Qround Reals Qreals Floats.
From Stdlib Require Import List String Ascii Bool Lia Lra.
From Stdlib Require Import DecimalString DecimalPos.
From Stdlib Require Lqa.
Import ListNotations.

Set Warnings "-inexact-float".

Open Scope string_scope.
Open Scope Q_scope.

(** ** Python numbers *)

(** The arithmetic that [calculate_churn_probability] needs from its
    operands: addition, multiplication, the promotion of an [int] and the
    value of a decimal literal [m/d] written in the source. *)
Class PyNum (A : Type) : Type := {
  num_add : A -> A -> A;
  num_mul : A -> A -> A;
  num_int : Z -> A;
  num_lit : Z -> positive -> A
}.

(** Exact rationals. *)
#[export] Instance PyNum_Q : PyNum Q := {
  num_add := Qplus;
  num_mul := Qmult;
  num_int := inject_Z;
  num_lit := fun m d => Qmake m d
}.

(** Binary64.  An integer below 2^53 in magnitude converts exactly, and a
    decimal literal denotes the double nearest to it, which is what the
    correctly rounded quotient of its numerator and denominator is. *)
Definition float_of_Z (z : Z) : float :=
  match z with
  | Z0 => PrimFloat.zero
  | Zpos _ => PrimFloat.of_uint63 (Uint63.of_Z z)
  | Zneg p => PrimFloat.opp (PrimFloat.of_uint63 (Uint63.of_Z (Zpos p)))
  end.

#[export] Instance PyNum_float : PyNum float := {
  num_add := PrimFloat.add;
  num_mul := PrimFloat.mul;
  num_int := float_of_Z;
  num_lit := fun m d => PrimFloat.div (float_of_Z m) (float_of_Z (Zpos d))
}.

(** The exact value of a finite binary64 number. *)
Definition float_to_Q (x : float) : option Q :=
  match Prim2SF x with
  | S754_zero _ => Some 0%Q
  | S754_finite s m e =>
      let z := if s then Zneg m else Zpos m in
      Some (match e with
            | Z0 => inject_Z z
            | Zpos k => inject_Z (z * 2 ^ Zpos k)
            | Zneg k => Qmake z (2 ^ k)
            end)
  | _ => None
  end.

(** ** The churn model (lines 59-68) *)

(** The fields of a row that [calculate_churn_probability] reads. *)
Record Row (A : Type) : Type := mkRow {
  tenure_months : Z;
  monthly_charges : A;
  contract_type : string;
  support_tickets : Z;
  customer_satisfaction : A
}.
Arguments mkRow {A}.
Arguments tenure_months {A}.
Arguments monthly_charges {A}.
Arguments contract_type {A}.
Arguments support_tickets {A}.
Arguments customer_satisfaction {A}.

(** Lines 60-66, one [let] per augmented assignment. *)
Definition calculate_logit {A : Type} `{PyNum A} (row : Row A) : A :=
  let logit := num_int (-2) in
  let logit := num_add logit (num_mul (num_lit (-5) 100) (num_int (tenure_months row))) in
  let logit := num_add logit (num_mul (num_lit 2 100) (monthly_charges row)) in
  let logit := num_add logit
      (if String.eqb (contract_type row) "Month-to-month" then num_lit 15 10 else num_int 0) in
  let logit := num_add logit
      (if String.eqb (contract_type row) "One year" then num_lit 5 10 else num_int 0) in
  let logit := num_add logit (num_mul (num_lit 3 10) (num_int (support_tickets row))) in
  let logit := num_add logit (num_mul (num_lit (-8) 10) (customer_satisfaction row)) in
  logit.

(** Line 67. *)
Definition sigmoid (logit : R) : R := (1 / (1 + exp (- logit)))%R.

Definition calculate_churn_probability (row : Row Q) : R :=
  sigmoid (Q2R (calculate_logit row)).

(** The score as the specification writes it. *)
Definition spec_logit (row : Row Q) : R :=
  (-2
   + (-0.05 * IZR (tenure_months row))
   + (0.02 * Q2R (monthly_charges row))
   + (if String.eqb (contract_type row) "Month-to-month" then 1.5 else 0)
   + (if String.eqb (contract_type row) "One year" then 0.5 else 0)
   + (0.3 * IZR (support_tickets row))
   + (-0.8 * Q2R (customer_satisfaction row)))%R.



(** The two example rows of the specification. *)
Definition example_low {A} `{PyNum A} : Row A :=
  mkRow 0 (num_int 20) "Month-to-month" 0 (num_int 5).
Definition example_high {A} `{PyNum A} : Row A :=
  mkRow 0 (num_int 120) "Month-to-month" 10 (num_int 1).

(** ** Array operations of numpy and pandas *)

Definition np_maximum (a b : Q) : Q := if Qle_bool a b then b else a.
Definition np_minimum (a b : Q) : Q := if Qle_bool a b then a else b.

(** [x.clip(lo, hi)] is [minimum(maximum(x, lo), hi)]; [x.clip(lo)] bounds
    from below only. *)
Definition clip (lo hi x : Q) : Q := np_minimum (np_maximum x lo) hi.
Definition clip_lower (lo x : Q) : Q := np_maximum x lo.

(** [astype(int)] truncates toward zero. *)
Definition astype_int (x : Q) : Z := Z.quot (Qnum x) (Zpos (Qden x)).

(** [np.rint]: the nearest integer, ties to the even one. *)
Definition np_rint (x : Q) : Z :=
  let f := Qfloor x in
  match Qcompare (x - inject_Z f) (1 # 2) with
  | Lt => f
  | Gt => (f + 1)%Z
  | Eq => if Z.even f then f else (f + 1)%Z
  end.

Fixpoint pow10 (d : nat) : positive :=
  match d with
  | O => 1%positive
  | S k => (10 * pow10 k)%positive
  end.

(** [x.round(d)] scales by [10^d], rounds to an integer and scales back. *)
Definition np_round (d : nat) (x : Q) : Q :=
  Qmake (np_rint (x * inject_Z (Zpos (pow10 d)))) (pow10 d).

Fixpoint map2 {A B C : Type} (f : A -> B -> C) (xs : list A) (ys : list B) : list C :=
  match xs, ys with
  | x :: xs', y :: ys' => f x y :: map2 f xs' ys'
  | _, _ => []
  end.

(** ** Strings: [range], [str], [zfill] *)

Fixpoint count_from (start : Z) (len : nat) : list Z :=
  match len with
  | O => []
  | S k => start :: count_from (start + 1) k
  end.

(** [range(a, b)], empty when [b <= a]. *)
Definition py_range (a b : Z) : list Z := count_from a (Z.to_nat (b - a)).

(** [str(i)] for an [int]. *)
Definition py_str (i : Z) : string := NilZero.string_of_int (Z.to_int i).

Fixpoint repeat_char (c : ascii) (k : nat) : string :=
  match k with
  | O => EmptyString
  | S k' => String c (repeat_char c k')
  end.

(** [s.zfill(width)]: zeros on the left up to [width] characters, after a
    leading sign if there is one; a string already that long is returned
    as it is. *)
Definition zfill (width : nat) (s : string) : string :=
  let pad := repeat_char "0" (width - String.length s) in
  match s with
  | String c rest =>
      if (Ascii.eqb c "+" || Ascii.eqb c "-")%bool
      then String c (pad ++ rest)
      else (pad ++ s)%string
  | EmptyString => pad
  end.

(** Line 37: [f'CUST{str(i).zfill(5)}']. *)
Definition customer_id (i : Z) : string := ("CUST" ++ zfill 5 (py_str i))%string.

Definition customer_ids (n : Z) : list string := map customer_id (py_range 1 (n + 1)).

(** The format of the data model: [CUST] and exactly five digits. *)
Definition is_digit (c : ascii) : bool :=
  let k := nat_of_ascii c in (48 <=? k)%nat && (k <=? 57)%nat.

Fixpoint all_digits (s : string) : bool :=
  match s with
  | EmptyString => true
  | String c rest => is_digit c && all_digits rest
  end.

Definition id_format_ok (s : string) : bool :=
  String.eqb (substring 0 4 s) "CUST"
  && Nat.eqb (String.length s) 9
  && all_digits (substring 4 5 s).

(** [s[k:]]. *)
Fixpoint string_drop (k : nat) (s : string) : string :=
  match k, s with
  | S k', String _ rest => string_drop k' rest
  | _, _ => s
  end.

(** The sequence number written in an identifier: the digits after the
    four letters, read as a decimal number. *)
Definition id_number (s : string) : option N :=
  option_map Pos.of_uint (NilEmpty.uint_of_string (string_drop 4 s)).

(** ** Data frames *)

(** A column is a typed array.  [ProbCol] holds the churn probabilities,
    [CatCol] the result of [pd.cut] ([None] is NaN, a value in no bin). *)
Inductive column : Type :=
| StrCol (xs : list string)
| IntCol (xs : list Z)
| FloatCol (xs : list Q)
| ProbCol (xs : list R)
| CatCol (xs : list (option string)).

(** A frame is its columns in order. *)
Definition DataFrame : Type := list (string * column).

Definition columns (df : DataFrame) : list string := map fst df.

Definition column_length (c : column) : nat :=
  match c with
  | StrCol xs => List.length xs
  | IntCol xs => List.length xs
  | FloatCol xs => List.length xs
  | ProbCol xs => List.length xs
  | CatCol xs => List.length xs
  end.

Fixpoint get_column (name : string) (df : DataFrame) : option column :=
  match df with
  | [] => None
  | (k, c) :: rest => if String.eqb k name then Some c else get_column name rest
  end.

(** [df[name] = c]: replaces the column in place, or appends a new one. *)
Fixpoint set_column (name : string) (c : column) (df : DataFrame) : DataFrame :=
  match df with
  | [] => [(name, c)]
  | (k, c0) :: rest =>
      if String.eqb k name then (k, c) :: rest else (k, c0) :: set_column name c rest
  end.

(** [df.drop(name, axis=1)]. *)
Definition drop_column (name : string) (df : DataFrame) : DataFrame :=
  filter (fun kc => negb (String.eqb (fst kc) name)) df.

(** ** Exceptions and results *)

Inductive exn : Type :=
| ValueError (msg : string)
| KeyError (key : string).

Inductive result (A : Type) : Type :=
| Ok (a : A)
| Raise (e : exn).
Arguments Ok {A}.
Arguments Raise {A}.

Definition get_int (name : string) (df : DataFrame) : result (list Z) :=
  match get_column name df with
  | Some (IntCol xs) => Ok xs
  | _ => Raise (KeyError name)
  end.

Definition get_float (name : string) (df : DataFrame) : result (list Q) :=
  match get_column name df with
  | Some (FloatCol xs) => Ok xs
  | _ => Raise (KeyError name)
  end.

Definition get_str (name : string) (df : DataFrame) : result (list string) :=
  match get_column name df with
  | Some (StrCol xs) => Ok xs
  | _ => Raise (KeyError name)
  end.

Definition get_prob (name : string) (df : DataFrame) : result (list R) :=
  match get_column name df with
  | Some (ProbCol xs) => Ok xs
  | _ => Raise (KeyError name)
  end.

(** The rows of a frame, as [calculate_churn_probability] sees them. *)
Fixpoint zip_rows (t : list Z) (m : list Q) (c : list string) (s : list Z) (cs : list Q)
  : list (Row Q) :=
  match t, m, c, s, cs with
  | t0 :: t', m0 :: m', c0 :: c', s0 :: s', cs0 :: cs' =>
      mkRow t0 m0 c0 s0 cs0 :: zip_rows t' m' c' s' cs'
  | _, _, _, _, _ => []
  end.

Definition iter_rows (df : DataFrame) : result (list (Row Q)) :=
  match get_int "tenure_months" df with
  | Raise e => Raise e
  | Ok t =>
  match get_float "monthly_charges" df with
  | Raise e => Raise e
  | Ok m =>
  match get_str "contract_type" df with
  | Raise e => Raise e
  | Ok c =>
  match get_int "support_tickets" df with
  | Raise e => Raise e
  | Ok s =>
  match get_float "customer_satisfaction" df with
  | Raise e => Raise e
  | Ok cs => Ok (zip_rows t m c s cs)
  end end end end end.

(** [pd.cut(x, bins, labels)]: the label of the bin [(lo, hi]] that holds
    [x], NaN when none does. *)
Fixpoint cut_value (x : Q) (bins : list Q) (labels : list string) : option string :=
  match bins, labels with
  | lo :: ((hi :: _) as rest), l :: ls =>
      if (negb (Qle_bool x lo) && Qle_bool x hi)%bool then Some l
      else cut_value x rest ls
  | _, _ => None
  end.

Definition pd_cut (xs : list Q) (bins : list Q) (labels : list string) : list (option string) :=
  map (fun x => cut_value x bins labels) xs.
(** ** The random stream *)

(** numpy's global generator: a state that [np.random.seed] replaces and
    that every sampler reads and advances.  The samplers draw one element;
    an array of [n] is [n] draws in a row.  The bit generator behind them
    is not part of the script, so it is a parameter of the development. *)
Record RandomState : Type := {
  rs_state : Type;
  rs_seed : Z -> rs_state;
  rs_normal : Q -> Q -> rs_state -> Q * rs_state;
  rs_exponential : Q -> rs_state -> Q * rs_state;
  rs_uniform : Q -> Q -> rs_state -> Q * rs_state;
  rs_poisson : Q -> rs_state -> N * rs_state;
  rs_random : rs_state -> Q * rs_state;
  rs_choice : nat -> option (list Q) -> rs_state -> nat * rs_state
}.

Section Generator.

Variable G : RandomState.

(** A computation on the global stream that may raise. *)
Definition M (A : Type) : Type := rs_state G -> result (A * rs_state G).

Definition ret {A : Type} (a : A) : M A := fun g => Ok (a, g).

Definition bind {A B : Type} (m : M A) (k : A -> M B) : M B :=
  fun g => match m g with
           | Ok (a, g') => k a g'
           | Raise e => Raise e
           end.

Definition lift {A : Type} (r : result A) : M A :=
  fun g => match r with
           | Ok a => Ok (a, g)
           | Raise e => Raise e
           end.

Notation "x <- m ;; k" := (bind m (fun x => k))
  (at level 61, m at next level, right associativity).

Fixpoint draw_n {A : Type} (step : rs_state G -> A * rs_state G) (n : nat) (g : rs_state G)
  : list A * rs_state G :=
  match n with
  | O => ([], g)
  | S k =>
      let (x, g1) := step g in
      let (xs, g2) := draw_n step k g1 in
      (x :: xs, g2)
  end.

(** An array of [size] draws; a negative size is refused. *)
Definition sized {A : Type} (step : rs_state G -> A * rs_state G) (size : Z) : M (list A) :=
  fun g =>
    if (size <? 0)%Z then Raise (ValueError "negative dimensions are not allowed")
    else Ok (draw_n step (Z.to_nat size) g).

Definition valid_seed (seed : Z) : bool := ((0 <=? seed) && (seed <? 2 ^ 32))%Z.

Definition np_random_seed (seed : Z) : M unit :=
  fun _ =>
    if valid_seed seed then Ok (tt, rs_seed G seed)
    else Raise (ValueError "Seed must be between 0 and 2**32 - 1").

Definition np_random_normal (loc scale : Q) (size : Z) : M (list Q) :=
  sized (rs_normal G loc scale) size.

Definition np_random_exponential (scale : Q) (size : Z) : M (list Q) :=
  sized (rs_exponential G scale) size.

Definition np_random_uniform (low high : Q) (size : Z) : M (list Q) :=
  sized (rs_uniform G low high) size.

Definition np_random_poisson (lam : Q) (size : Z) : M (list N) :=
  sized (rs_poisson G lam) size.

Definition np_random_random (size : Z) : M (list Q) :=
  sized (rs_random G) size.

(** The weights of [np.random.choice] must match the population, be
    non-negative and sum to one (numpy allows a rounding tolerance on the
    sum; the literal weights of the script sum to one exactly). *)
Definition weights_error (k : nat) (p : list Q) : option exn :=
  if negb (Nat.eqb (List.length p) k)
  then Some (ValueError "'a' and 'p' must have same size")
  else if negb (forallb (fun w => Qle_bool 0 w) p)
  then Some (ValueError "probabilities are not non-negative")
  else if negb (Qeq_bool (fold_left Qplus p 0) 1)
  then Some (ValueError "probabilities do not sum to 1")
  else None.

(** [np.random.choice(a, size, p=p)].  The sampler returns a position of
    [a]; numpy keeps it below [len(a)], so the default of [nth] is not
    reached. *)
Definition np_random_choice (a : list string) (size : Z) (p : option (list Q))
  : M (list string) :=
  fun g =>
    match a with
    | [] => Raise (ValueError "'a' cannot be empty unless no samples are taken")
    | _ :: _ =>
        match match p with Some w => weights_error (List.length a) w | None => None end with
        | Some e => Raise e
        | None =>
            match sized (rs_choice G (List.length a) p) size g with
            | Ok (idx, g') => Ok (map (fun i => nth i a EmptyString) idx, g')
            | Raise e => Raise e
            end
        end
    end.

(** ** The generator (lines 32-72) *)

(** Lines 32-56: the seed, the fourteen sampled columns in the order of
    the dictionary, then [total_charges]. *)
Definition build_features (n_customers : Z) (seed : Z) : M DataFrame :=
  _ <- np_random_seed seed ;;
  let ids := customer_ids n_customers in
  age <- np_random_normal 45 15 n_customers ;;
  gender <- np_random_choice ["Male"; "Female"; "Other"] n_customers
              (Some [48 # 100; 48 # 100; 4 # 100]) ;;
  tenure <- np_random_exponential 24 n_customers ;;
  contract <- np_random_choice ["Month-to-month"; "One year"; "Two year"] n_customers
              (Some [5 # 10; 3 # 10; 2 # 10]) ;;
  monthly <- np_random_uniform 20 120 n_customers ;;
  internet <- np_random_choice ["DSL"; "Fiber optic"; "No"] n_customers
              (Some [3 # 10; 5 # 10; 2 # 10]) ;;
  security <- np_random_choice ["Yes"; "No"] n_customers None ;;
  support <- np_random_choice ["Yes"; "No"] n_customers None ;;
  streaming <- np_random_choice ["Yes"; "No"] n_customers None ;;
  payment <- np_random_choice
               ["Electronic check"; "Mailed check"; "Bank transfer"; "Credit card"]
               n_customers (Some [35 # 100; 2 # 10; 25 # 100; 2 # 10]) ;;
  paperless <- np_random_choice ["Yes"; "No"] n_customers (Some [6 # 10; 4 # 10]) ;;
  tickets <- np_random_poisson 2 n_customers ;;
  satisfaction <- np_random_uniform 1 5 n_customers ;;
  let data : DataFrame :=
    [ ("customer_id", StrCol ids);
      ("age", IntCol (map (fun x => astype_int (clip 18 90 x)) age));
      ("gender", StrCol gender);
      ("tenure_months", IntCol (map (fun x => astype_int (clip 0 200 x)) tenure));
      ("contract_type", StrCol contract);
      ("monthly_charges", FloatCol (map (np_round 2) monthly));
      ("internet_service", StrCol internet);
      ("online_security", StrCol security);
      ("tech_support", StrCol support);
      ("streaming_tv", StrCol streaming);
      ("payment_method", StrCol payment);
      ("paperless_billing", StrCol paperless);
      ("support_tickets", IntCol (map Z.of_N tickets));
      ("customer_satisfaction", FloatCol (map (np_round 1) satisfaction)) ] in
  t <- lift (get_int "tenure_months" data) ;;
  m <- lift (get_float "monthly_charges" data) ;;
  noise <- np_random_normal 0 50 n_customers ;;
  let total := map2 Qplus (map2 (fun ti mi => inject_Z ti * mi) t m) noise in
  ret (set_column "total_charges"
         (FloatCol (map (fun x => np_round 2 (clip_lower 0 x)) total)) data).

(** Line 71: [Yes] when the draw is below the probability. *)
Definition churn_label (u : Q) (prob : R) : string :=
  if Rlt_dec (Q2R u) prob then "Yes" else "No".

(** Lines 70-72: the probability of each row ([data.apply] maps the
    function over the rows in order, and over no row when the frame is
    empty), one uniform draw per row, the label, and the removal of the
    probability column. *)
Definition label_churn (n_customers : Z) (data : DataFrame) : M DataFrame :=
  rows <- lift (iter_rows data) ;;
  let data := set_column "churn_prob" (ProbCol (map calculate_churn_probability rows)) data in
  u <- np_random_random n_customers ;;
  prob <- lift (get_prob "churn_prob" data) ;;
  let data := set_column "churn" (StrCol (map2 churn_label u prob)) data in
  ret (drop_column "churn_prob" data).

Definition generate (n_customers : Z) (seed : Z) : M DataFrame :=
  data <- build_features n_customers seed ;;
  label_churn n_customers data.

(** ** After generation *)

(** The statements of the plotting section that assign to [data]: lines
    159 and 177 add a column each.  Everything else there reads the frame
    or works on a copy ([numeric_data = data.copy()]). *)
Definition plots (data : DataFrame) : result DataFrame :=
  match get_int "tenure_months" data with
  | Raise e => Raise e
  | Ok tenure =>
      let data := set_column "tenure_group"
        (CatCol (pd_cut (map inject_Z tenure) [-1; 12; 24; 48; 200]
                   ["0-1 year"; "1-2 years"; "2-4 years"; "4+ years"])) data in
      match get_float "customer_satisfaction" data with
      | Raise e => Raise e
      | Ok sat =>
          Ok (set_column "satisfaction_group"
                (CatCol (pd_cut sat [0; 2; 3; 4; 5]
                           ["Poor (1-2)"; "Fair (2-3)"; "Good (3-4)"; "Excellent (4-5)"]))
                data)
      end
  end.

(** The script as far as the table goes: generation, the two exports of
    lines 75-76 (a file is the frame written to it), then the plots.  It
    returns the exported files and the table as the run leaves it. *)
Definition main (n_customers : Z) (seed : Z) : M (list (string * DataFrame) * DataFrame) :=
  data <- generate n_customers seed ;;
  let files := [ ("data/customer_churn_data.csv", data);
                 ("data/customer_churn_clean.csv", data) ] in
  data' <- lift (plots data) ;;
  ret (files, data').

End Generator.

Arguments ret {G A}.
Arguments bind {G A B}.
Arguments lift {G A}.
Arguments draw_n {G A}.
Arguments sized {G A}.

(** The constants of lines 32-33. *)
Definition the_seed : Z := 42.
Definition n_customers : Z := 5000.

(** The fields of the data model, in the order of the table. *)
Definition model_fields : list string :=
  [ "customer_id"; "age"; "gender"; "tenure_months"; "contract_type";
    "monthly_charges"; "internet_service"; "online_security"; "tech_support";
    "streaming_tv"; "payment_method"; "paperless_billing"; "support_tickets";
    "customer_satisfaction"; "total_charges"; "churn" ].

(** ** A small concrete stream *)

(** A linear congruential generator, to run the definitions on. *)
Definition lcg_next (s : Z) : Z := ((1103515245 * s + 12345) mod 2147483648)%Z.

Definition lcg_bits (s : Z) : Z := (s / 65536)%Z.

Definition lcg_unit (s : Z) : Q := Qmake (lcg_bits s mod 1000) 1000.

Definition lcg : RandomState := {|
  rs_state := Z;
  rs_seed := fun seed => seed;
  rs_normal := fun loc scale s =>
    (loc + scale * (Qmake (lcg_bits s mod 6001 - 3000) 1000), lcg_next s);
  rs_exponential := fun scale s => (scale * (Qmake (lcg_bits s mod 5000) 1000), lcg_next s);
  rs_uniform := fun low high s => (low + (high - low) * lcg_unit s, lcg_next s);
  rs_poisson := fun _ s => (Z.to_N (lcg_bits s mod 7), lcg_next s);
  rs_random := fun s => (lcg_unit s, lcg_next s);
  rs_choice := fun k _ s => (Z.to_nat (lcg_bits s mod Z.of_nat k), lcg_next s)
|}.

(** ** The draws of a run, in the order the script makes them *)

(** The script interleaves the sampler calls with the column arithmetic.
    The arithmetic does not touch the stream, so a run can be read as
    "draw everything, then compute the columns"; [build_features_draws]
    below proves that reading against [build_features]. *)
Record Draws : Type := {
  d_age : list Q;
  d_gender : list nat;
  d_tenure : list Q;
  d_contract : list nat;
  d_monthly : list Q;
  d_internet : list nat;
  d_security : list nat;
  d_support : list nat;
  d_streaming : list nat;
  d_payment : list nat;
  d_paperless : list nat;
  d_tickets : list N;
  d_satisfaction : list Q;
  d_noise : list Q
}.

Definition draw_all (G : RandomState) (n : nat) (g : rs_state G) : Draws * rs_state G :=
  let (age, g) := draw_n (rs_normal G 45 15) n g in
  let (gender, g) := draw_n (rs_choice G 3 (Some [48 # 100; 48 # 100; 4 # 100])) n g in
  let (tenure, g) := draw_n (rs_exponential G 24) n g in
  let (contract, g) := draw_n (rs_choice G 3 (Some [5 # 10; 3 # 10; 2 # 10])) n g in
  let (monthly, g) := draw_n (rs_uniform G 20 120) n g in
  let (internet, g) := draw_n (rs_choice G 3 (Some [3 # 10; 5 # 10; 2 # 10])) n g in
  let (security, g) := draw_n (rs_choice G 2 None) n g in
  let (support, g) := draw_n (rs_choice G 2 None) n g in
  let (streaming, g) := draw_n (rs_choice G 2 None) n g in
  let (payment, g) :=
    draw_n (rs_choice G 4 (Some [35 # 100; 2 # 10; 25 # 100; 2 # 10])) n g in
  let (paperless, g) := draw_n (rs_choice G 2 (Some [6 # 10; 4 # 10])) n g in
  let (tickets, g) := draw_n (rs_poisson G 2) n g in
  let (satisfaction, g) := draw_n (rs_uniform G 1 5) n g in
  let (noise, g) := draw_n (rs_normal G 0 50) n g in
  (Build_Draws age gender tenure contract monthly internet security support streaming
     payment paperless tickets satisfaction noise, g).

Definition pick (a : list string) (idx : list nat) : list string :=
  map (fun i => nth i a EmptyString) idx.

Definition age_column (d : Draws) : list Z :=
  map (fun x => astype_int (clip 18 90 x)) (d_age d).

Definition tenure_column (d : Draws) : list Z :=
  map (fun x => astype_int (clip 0 200 x)) (d_tenure d).

Definition monthly_column (d : Draws) : list Q := map (np_round 2) (d_monthly d).

Definition contract_column (d : Draws) : list string :=
  pick ["Month-to-month"; "One year"; "Two year"] (d_contract d).

Definition tickets_column (d : Draws) : list Z := map Z.of_N (d_tickets d).

Definition satisfaction_column (d : Draws) : list Q := map (np_round 1) (d_satisfaction d).

(** [tenure_months * monthly_charges + noise], before the clamp. *)
Definition raw_total (d : Draws) : list Q :=
  map2 Qplus (map2 (fun ti mi => inject_Z ti * mi) (tenure_column d) (monthly_column d))
       (d_noise d).

Definition total_column (d : Draws) : list Q :=
  map (fun x => np_round 2 (clip_lower 0 x)) (raw_total d).

Definition feature_frame (n : Z) (d : Draws) : DataFrame :=
  [ ("customer_id", StrCol (customer_ids n));
    ("age", IntCol (age_column d));
    ("gender", StrCol (pick ["Male"; "Female"; "Other"] (d_gender d)));
    ("tenure_months", IntCol (tenure_column d));
    ("contract_type", StrCol (contract_column d));
    ("monthly_charges", FloatCol (monthly_column d));
    ("internet_service", StrCol (pick ["DSL"; "Fiber optic"; "No"] (d_internet d)));
    ("online_security", StrCol (pick ["Yes"; "No"] (d_security d)));
    ("tech_support", StrCol (pick ["Yes"; "No"] (d_support d)));
    ("streaming_tv", StrCol (pick ["Yes"; "No"] (d_streaming d)));
    ("payment_method",
     StrCol (pick ["Electronic check"; "Mailed check"; "Bank transfer"; "Credit card"]
                  (d_payment d)));
    ("paperless_billing", StrCol (pick ["Yes"; "No"] (d_paperless d)));
    ("support_tickets", IntCol (tickets_column d));
    ("customer_satisfaction", FloatCol (satisfaction_column d));
    ("total_charges", FloatCol (total_column d)) ].

Definition rows_of (d : Draws) : list (Row Q) :=
  zip_rows (tenure_column d) (monthly_column d) (contract_column d) (tickets_column d)
           (satisfaction_column d).

Definition churn_column (d : Draws) (us : list Q) : list string :=
  map2 churn_label us (map calculate_churn_probability (rows_of d)).

Definition final_frame (n : Z) (d : Draws) (us : list Q) : DataFrame :=
  (feature_frame n d ++ [("churn", StrCol (churn_column d us))])%list.

(** Every array of a run has one entry per row. *)
Definition draws_length (k : nat) (d : Draws) : Prop :=
  List.length (d_age d) = k /\ List.length (d_gender d) = k /\
  List.length (d_tenure d) = k /\ List.length (d_contract d) = k /\
  List.length (d_monthly d) = k /\ List.length (d_internet d) = k /\
  List.length (d_security d) = k /\ List.length (d_support d) = k /\
  List.length (d_streaming d) = k /\ List.length (d_payment d) = k /\
  List.length (d_paperless d) = k /\ List.length (d_tickets d) = k /\
  List.length (d_satisfaction d) = k /\ List.length (d_noise d) = k.

(** Every column of a frame has [k] rows. *)
Definition frame_rows (k : nat) (df : DataFrame) : Prop :=
  Forall (fun kc => column_length (snd kc) = k) df.

(** ** Rational enclosures of the exponential *)

(** Squaring, rounded down or up to thirty decimals: one step of the
    enclosure of [exp (2 * x)] from one of [exp x]. *)
Definition enclosure_grid : positive := (10 ^ 30)%positive.

Definition square_down (b : Q) : Q :=
  Qmake (Qfloor (b * b * inject_Z (Zpos enclosure_grid))) enclosure_grid.

Definition square_up (b : Q) : Q :=
  Qmake (Qceiling (b * b * inject_Z (Zpos enclosure_grid))) enclosure_grid.

(** [4.1 / 2^20], and the bounds [1 + x <= exp x <= 1 / (1 - x)] at it,
    squared twenty times. *)
Definition small_step : Q := Qmake 41 (10 * 2 ^ 20).

Definition exp_4_1_lower : Q := Nat.iter 20 square_down (1 + small_step).

Definition exp_4_1_upper : Q := Nat.iter 20 square_up (/ (1 - small_step)).

(** ** Reading the table: the statistics of the script *)

(** [len(data)]: the number of rows. *)
Definition frame_len (df : DataFrame) : nat :=
  match df with
  | [] => 0%nat
  | (_, c) :: _ => column_length c
  end.

(** [s == v] on a Series of strings. *)
Definition eq_mask (v : string) (xs : list string) : list bool :=
  map (fun x => String.eqb x v) xs.

Definition count_true (m : list bool) : nat :=
  List.length (filter (fun b => b) m).

(** [mask.mean()]: the fraction of [True]; NaN, here [None], on an empty
    Series. *)
Definition mask_mean (m : list bool) : option Q :=
  match m with
  | [] => None
  | _ :: _ => Some (Qmake (Z.of_nat (count_true m)) (Pos.of_nat (List.length m)))
  end.

(** Lines 79 and 422: [(data['churn'] == 'Yes').mean() * 100]. *)
Definition churn_rate (data : DataFrame) : result (option Q) :=
  match get_str "churn" data with
  | Raise e => Raise e
  | Ok churn => Ok (option_map (fun r => r * 100) (mask_mean (eq_mask "Yes" churn)))
  end.

(** Lines 379-380: [int(len(data) * 0.75)] and [int(len(data) * 0.25)].
    Both factors are binary fractions, so the products are exact in
    binary64 for any table that fits in memory; [int] truncates. *)
Definition training_samples (data : DataFrame) : Z :=
  astype_int (inject_Z (Z.of_nat (frame_len data)) * (75 # 100)).

Definition test_samples (data : DataFrame) : Z :=
  astype_int (inject_Z (Z.of_nat (frame_len data)) * (25 # 100)).

(** One group of [data.groupby(key)]: the values of the rows whose key is
    [k], in the order of the rows. *)
Definition group_of {A : Type} (k : string) (keys : list string) (vals : list A) : list A :=
  map snd (filter (fun kv => String.eqb (fst kv) k) (combine keys vals)).

(** [Series.mean()]: the sum over the count; NaN, here [None], on an empty
    Series. *)
Definition np_mean (xs : list Q) : option Q :=
  match xs with
  | [] => None
  | _ :: _ => Some (fold_left Qplus xs 0 / inject_Z (Z.of_nat (List.length xs)))
  end.

(** A numeric column as numbers. *)
Definition get_numeric (name : string) (df : DataFrame) : result (list Q) :=
  match get_column name df with
  | Some (IntCol xs) => Ok (map inject_Z xs)
  | Some (FloatCol xs) => Ok xs
  | _ => Raise (KeyError name)
  end.

(** Lines 340-347: one cell of
    [data.groupby('churn').agg({col: 'mean'}).round(2)], the one of group
    [g]; [None] when no row is in the group, and the summary has no such
    line. *)
Definition summary_mean (col g : string) (data : DataFrame) : result (option Q) :=
  match get_str "churn" data with
  | Raise e => Raise e
  | Ok churn =>
      match get_numeric col data with
      | Raise e => Raise e
      | Ok xs => Ok (option_map (np_round 2) (np_mean (group_of g churn xs)))
      end
  end.

(** Line 348: [data.groupby('churn').size()], for group [g]. *)
Definition summary_count (g : string) (data : DataFrame) : result nat :=
  match get_str "churn" data with
  | Raise e => Raise e
  | Ok churn => Ok (List.length (group_of g churn churn))
  end.


(** Lines 306-318: the grid [np.linspace(start, stop, num)] and the power
    [x ** e] of a base that is not negative, as a real number. *)
Definition np_linspace (start stop : Q) (num : nat) : list Q :=
  map (fun i => start + inject_Z (Z.of_nat i)
                        * ((stop - start) / inject_Z (Z.of_nat (num - 1))))
      (seq 0 num).

Definition np_power (x e : R) : R :=
  if Req_dec_T x 0 then 0%R else Rpower x e.

Definition fpr : list Q := np_linspace 0 1 100.

(** Line 209: [data[data['support_tickets'] <= 10]], the rows selected by
    a boolean mask, in every column. *)
Definition mask_filter {A : Type} (mask : list bool) (xs : list A) : list A :=
  map snd (filter (fun bx => fst bx) (combine mask xs)).

Definition column_filter (mask : list bool) (c : column) : column :=
  match c with
  | StrCol xs => StrCol (mask_filter mask xs)
  | IntCol xs => IntCol (mask_filter mask xs)
  | FloatCol xs => FloatCol (mask_filter mask xs)
  | ProbCol xs => ProbCol (mask_filter mask xs)
  | CatCol xs => CatCol (mask_filter mask xs)
  end.

Definition frame_filter (mask : list bool) (df : DataFrame) : DataFrame :=
  map (fun kc => (fst kc, column_filter mask (snd kc))) df.

Definition le_mask (bound : Z) (xs : list Z) : list bool :=
  map (fun x => (x <=? bound)%Z) xs.

Definition low_ticket_rows (data : DataFrame) : result DataFrame :=
  match get_int "support_tickets" data with
  | Raise e => Raise e
  | Ok tickets => Ok (frame_filter (le_mask 10 tickets) data)
  end.
(** ** Facts about the churn model *)

Lemma Q2R_inject_Z (z : Z) : Q2R (inject_Z z) = IZR z.
Proof. unfold Q2R, inject_Z; simpl. field. Qed.

Lemma Q2R_lit (m : Z) (d : positive) : Q2R (Qmake m d) = (IZR m / IZR (Zpos d))%R.
Proof. reflexivity. Qed.

Lemma calculate_logit_spec (row : Row Q) :
  Q2R (calculate_logit row) = spec_logit row.
Proof.
  unfold calculate_logit, spec_logit; cbn [num_add num_mul num_int num_lit PyNum_Q].
  rewrite !Q2R_plus, !Q2R_mult.
  destruct (String.eqb (contract_type row) "Month-to-month");
    destruct (String.eqb (contract_type row) "One year");
    rewrite ?Q2R_lit, ?Q2R_inject_Z; lra.
Qed.


Lemma sigmoid_range (x : R) : (0 < sigmoid x < 1)%R.
Proof.
  unfold sigmoid. pose proof (exp_pos (- x)) as Hx.
  split.
  - apply Rdiv_lt_0_compat; lra.
  - apply (Rmult_lt_reg_r (1 + exp (- x))); [lra|].
    unfold Rdiv. rewrite Rmult_assoc, Rinv_l by lra. lra.
Qed.

(** ** The definitions at work *)

Example clip_then_truncate :
  map (fun x => astype_int (clip 18 90 x)) [12 # 1; 377 # 10; 899 # 10; 250 # 1]
  = [18; 37; 89; 90]%Z.
Proof. reflexivity. Qed.

Example astype_int_toward_zero : astype_int (- (37 # 10)) = (-3)%Z.
Proof. reflexivity. Qed.

Example np_round_ties_to_even :
  np_round 2 (12345 # 1000) == 1234 # 100 /\ np_round 2 (12355 # 1000) == 1236 # 100.
Proof. split; reflexivity. Qed.

Example customer_ids_3 : customer_ids 3 = ["CUST00001"; "CUST00002"; "CUST00003"].
Proof. reflexivity. Qed.

Example zfill_examples :
  zfill 5 "42" = "00042" /\ zfill 5 "-42" = "-0042" /\ zfill 5 "123456" = "123456".
Proof. repeat split. Qed.

Example pd_cut_tenure :
  pd_cut [0; 12; 13; 200; 201] [-1; 12; 24; 48; 200]
         ["0-1 year"; "1-2 years"; "2-4 years"; "4+ years"]
  = [Some "0-1 year"; Some "0-1 year"; Some "1-2 years"; Some "4+ years"; None].
Proof. reflexivity. Qed.

Example weights_must_sum_to_one :
  weights_error 3 [48 # 100; 48 # 100; 4 # 100] = None /\
  weights_error 2 [6 # 10; 5 # 10] = Some (ValueError "probabilities do not sum to 1").
Proof. split; reflexivity. Qed.

(** The literals of the churn model are the doubles Python reads them as. *)
Example binary64_literals :
  num_lit (-5) 100 = (-0.05)%float /\ num_lit 2 100 = 0.02%float /\
  num_lit 15 10 = 1.5%float /\ num_lit 5 10 = 0.5%float /\
  num_lit 3 10 = 0.3%float /\ num_lit (-8) 10 = (-0.8)%float.
Proof. repeat split. Qed.

(** The feature table of a two-row run on the small stream. *)
Example features_of_two_rows :
  build_features lcg 2 the_seed 0%Z
  = Ok ([ ("customer_id", StrCol ["CUST00001"; "CUST00002"]);
          ("age", IntCol [18; 18]%Z);
          ("gender", StrCol ["Other"; "Other"]);
          ("tenure_months", IntCol [11; 92]%Z);
          ("contract_type", StrCol ["One year"; "Month-to-month"]);
          ("monthly_charges", FloatCol [70.00; 26.50]);
          ("internet_service", StrCol ["Fiber optic"; "No"]);
          ("online_security", StrCol ["Yes"; "Yes"]);
          ("tech_support", StrCol ["Yes"; "No"]);
          ("streaming_tv", StrCol ["Yes"; "No"]);
          ("payment_method", StrCol ["Credit card"; "Credit card"]);
          ("paperless_billing", StrCol ["No"; "No"]);
          ("support_tickets", IntCol [3; 0]%Z);
          ("customer_satisfaction", FloatCol [4.3; 2.7]);
          ("total_charges", FloatCol [673.55; 2315.40]) ],
        1726604670%Z).
Proof. vm_compute. reflexivity. Qed.

(** ** Clamping, truncation and rounding *)

Lemma np_maximum_lower (x lo : Q) : lo <= np_maximum x lo.
Proof.
  unfold np_maximum. destruct (Qle_bool x lo) eqn:E.
  - apply Qle_refl.
  - destruct (Qlt_le_dec x lo) as [H|H]; [|exact H].
    apply Qlt_le_weak in H. apply Qle_bool_iff in H. congruence.
Qed.

Lemma np_maximum_upper (x lo hi : Q) : x <= hi -> lo <= hi -> np_maximum x lo <= hi.
Proof. unfold np_maximum. destruct (Qle_bool x lo); auto. Qed.

Lemma np_minimum_upper (x hi : Q) : np_minimum x hi <= hi.
Proof.
  unfold np_minimum. destruct (Qle_bool x hi) eqn:E.
  - now apply Qle_bool_iff.
  - apply Qle_refl.
Qed.

Lemma np_minimum_lower (x lo hi : Q) : lo <= x -> lo <= hi -> lo <= np_minimum x hi.
Proof. unfold np_minimum. destruct (Qle_bool x hi); auto. Qed.

Lemma clip_range (lo hi x : Q) : lo <= hi -> lo <= clip lo hi x /\ clip lo hi x <= hi.
Proof.
  intro H. unfold clip. split.
  - apply np_minimum_lower; [apply np_maximum_lower | exact H].
  - apply np_minimum_upper.
Qed.

Lemma clip_lower_range (lo x : Q) : lo <= clip_lower lo x.
Proof. apply np_maximum_lower. Qed.

(** Truncation toward zero keeps a value between any two integers that
    enclose it. *)
Lemma astype_int_range (a b : Z) (x : Q) :
  inject_Z a <= x -> x <= inject_Z b -> (a <= astype_int x <= b)%Z.
Proof.
  destruct x as [p q]. unfold Qle, astype_int; simpl. intros Ha Hb.
  pose proof (Z.quot_rem' p (Zpos q)) as E.
  assert (Hq : (0 < Zpos q)%Z) by lia.
  destruct (Z_le_gt_dec 0 p) as [Hp|Hp].
  - pose proof (Z.rem_bound_pos p (Zpos q) Hp Hq). nia.
  - assert (Hp' : (p <= 0)%Z) by lia.
    assert (Hne : Zpos q <> 0%Z) by lia.
    pose proof (Z.rem_nonpos p (Zpos q) Hne Hp') as Hr1.
    pose proof (Z.rem_bound_abs p (Zpos q) Hne) as Hr2.
    rewrite (Z.abs_neq (Z.rem p (Zpos q))), (Z.abs_eq (Zpos q)) in Hr2 by lia.
    nia.
Qed.

Lemma np_rint_nonneg (x : Q) : 0 <= x -> (0 <= np_rint x)%Z.
Proof.
  intro Hx. unfold np_rint.
  assert (Hf : (0 <= Qfloor x)%Z).
  { change 0%Z with (Qfloor 0). now apply Qfloor_resp_le. }
  destruct (Qcompare (x - inject_Z (Qfloor x)) (1 # 2)); try lia.
  destruct (Z.even (Qfloor x)); lia.
Qed.

Lemma np_round_nonneg (d : nat) (x : Q) : 0 <= x -> 0 <= np_round d x.
Proof.
  intro Hx. unfold np_round, Qle; simpl.
  rewrite Z.mul_1_r. apply np_rint_nonneg.
  apply Qmult_le_0_compat; [exact Hx | unfold Qle; simpl; lia].
Qed.

(** ** Enclosing [exp 4.1] *)

Lemma Qmake_le_shift (z : Z) (p : positive) (q : Q) :
  inject_Z z <= q * inject_Z (Zpos p) -> Qmake z p <= q.
Proof.
  destruct q as [n d]. unfold Qle, Qmult, inject_Z; simpl.
  rewrite !Z.mul_1_r, Pos.mul_1_r. intro H. exact H.
Qed.

Lemma Qmake_ge_shift (z : Z) (p : positive) (q : Q) :
  q * inject_Z (Zpos p) <= inject_Z z -> q <= Qmake z p.
Proof.
  destruct q as [n d]. unfold Qle, Qmult, inject_Z; simpl.
  rewrite !Z.mul_1_r, Pos.mul_1_r. intro H. exact H.
Qed.

Lemma Qsquare_nonneg (b : Q) : 0 <= b * b.
Proof. destruct b as [n d]. unfold Qle, Qmult; simpl. nia. Qed.

Lemma square_down_le (b : Q) : (0 <= Q2R (square_down b) <= Q2R b * Q2R b)%R.
Proof.
  split.
  - replace 0%R with (Q2R 0) by (unfold Q2R; simpl; lra).
    apply Qle_Rle. unfold square_down.
    assert (Hz : (0 <= Qfloor (b * b * inject_Z (Zpos enclosure_grid)))%Z).
    { change 0%Z with (Qfloor 0). apply Qfloor_resp_le.
      apply Qmult_le_0_compat; [apply Qsquare_nonneg |].
      unfold Qle, inject_Z; cbn [Qnum Qden]. lia. }
    revert Hz. generalize (Qfloor (b * b * inject_Z (Zpos enclosure_grid))).
    intros z Hz. unfold Qle; cbn [Qnum Qden]. lia.
  - rewrite <- Q2R_mult. apply Qle_Rle. unfold square_down.
    apply Qmake_le_shift, Qfloor_le.
Qed.

Lemma square_up_ge (b : Q) : (Q2R b * Q2R b <= Q2R (square_up b))%R.
Proof.
  rewrite <- Q2R_mult. apply Qle_Rle. unfold square_up.
  apply Qmake_ge_shift, Qle_ceiling.
Qed.

Lemma exp_double (x : R) : exp (2 * x) = (exp x * exp x)%R.
Proof. replace (2 * x)%R with (x + x)%R by lra. apply exp_plus. Qed.

Lemma exp_iter_lower (k : nat) (x : R) (b : Q) :
  (0 <= Q2R b <= exp x)%R ->
  (0 <= Q2R (Nat.iter k square_down b) <= exp (2 ^ k * x))%R.
Proof.
  intro Hb. induction k as [|k IH].
  - simpl. now rewrite Rmult_1_l.
  - cbn [Nat.iter nat_rect pow].
    change (nat_rect (fun _ => Q) b (fun _ => square_down) k)
      with (Nat.iter k square_down b).
    destruct (square_down_le (Nat.iter k square_down b)) as [H0 H1].
    split; [exact H0 |].
    rewrite Rmult_assoc, exp_double.
    eapply Rle_trans; [exact H1 |].
    apply Rmult_le_compat; tauto.
Qed.

Lemma exp_iter_upper (k : nat) (x : R) (b : Q) :
  (exp x <= Q2R b)%R -> (exp (2 ^ k * x) <= Q2R (Nat.iter k square_up b))%R.
Proof.
  intro Hb. induction k as [|k IH].
  - simpl. now rewrite Rmult_1_l.
  - cbn [Nat.iter nat_rect pow].
    change (nat_rect (fun _ => Q) b (fun _ => square_up) k)
      with (Nat.iter k square_up b).
    rewrite Rmult_assoc, exp_double.
    eapply Rle_trans; [| apply square_up_ge].
    pose proof (exp_pos (2 ^ k * x)) as Hpos.
    apply Rmult_le_compat; lra.
Qed.

Lemma small_step_value : (2 ^ 20 * Q2R small_step)%R = 4.1%R.
Proof. unfold small_step, Q2R. simpl. lra. Qed.

Lemma exp_4_1_enclosure : (60.335 <= exp 4.1 <= 60.345)%R.
Proof.
  rewrite <- small_step_value.
  assert (Hx : (0 < Q2R small_step < 1)%R).
  { unfold small_step, Q2R. simpl. lra. }
  split.
  - apply Rle_trans with (Q2R exp_4_1_lower).
    + replace 60.335%R with (Q2R (60335 # 1000)) by (unfold Q2R; simpl; lra).
      apply Qle_Rle, Qle_bool_iff. vm_compute. reflexivity.
    + apply exp_iter_lower. rewrite Q2R_plus.
      replace (Q2R 1) with 1%R by (unfold Q2R; simpl; lra).
      pose proof (exp_ineq1_le (Q2R small_step)). lra.
  - apply Rle_trans with (Q2R exp_4_1_upper).
    + apply exp_iter_upper.
      assert (Hne : ~ 1 - small_step == 0) by (vm_compute; discriminate).
      rewrite (Q2R_inv _ Hne), Q2R_minus.
      replace (Q2R 1) with 1%R by (unfold Q2R; simpl; lra).
      pose proof (exp_ineq1_le (- Q2R small_step)) as Hle.
      replace (exp (Q2R small_step)) with (/ exp (- Q2R small_step))%R
        by (rewrite exp_Ropp, Rinv_inv; reflexivity).
      apply Rinv_le_contravar; lra.
    + replace 60.345%R with (Q2R (60345 # 1000)) by (unfold Q2R; simpl; lra).
      apply Qle_Rle, Qle_bool_iff. vm_compute. reflexivity.
Qed.

Lemma sigmoid_minus_4_1 : (Rabs (sigmoid (- 4.1) - 0.0163) < 0.0001)%R.
Proof.
  unfold sigmoid. replace (- -4.1)%R with 4.1%R by lra.
  destruct exp_4_1_enclosure as [Hl Hu].
  assert (H1 : (/ 61.345 <= / (1 + exp 4.1))%R) by (apply Rinv_le_contravar; lra).
  assert (H2 : (/ (1 + exp 4.1) <= / 61.335)%R) by (apply Rinv_le_contravar; lra).
  unfold Rdiv. rewrite Rmult_1_l.
  apply Rabs_def1; lra.
Qed.

Lemma sigmoid_plus_4_1 : (Rabs (sigmoid 4.1 - 0.9836) < 0.0001)%R.
Proof.
  unfold sigmoid. rewrite exp_Ropp.
  destruct exp_4_1_enclosure as [Hl Hu].
  assert (Hpos : (0 < exp 4.1)%R) by lra.
  assert (H1 : (/ 60.345 <= / exp 4.1)%R) by (apply Rinv_le_contravar; lra).
  assert (H2 : (/ exp 4.1 <= / 60.335)%R) by (apply Rinv_le_contravar; lra).
  assert (H3 : (/ (1 + / 60.335) <= / (1 + / exp 4.1))%R)
    by (apply Rinv_le_contravar; lra).
  assert (H4 : (/ (1 + / exp 4.1) <= / (1 + / 60.345))%R)
    by (apply Rinv_le_contravar; lra).
  unfold Rdiv. rewrite Rmult_1_l.
  apply Rabs_def1; lra.
Qed.

(** ** Lists *)

Lemma map2_length {A B C : Type} (f : A -> B -> C) (xs : list A) (ys : list B) :
  List.length (map2 f xs ys) = Nat.min (List.length xs) (List.length ys).
Proof.
  revert ys; induction xs as [|x xs IH]; intros [|y ys]; simpl; auto.
Qed.


Lemma zip_rows_length (t : list Z) (m : list Q) (c : list string) (s : list Z)
      (cs : list Q) (k : nat) :
  List.length t = k -> List.length m = k -> List.length c = k ->
  List.length s = k -> List.length cs = k ->
  List.length (zip_rows t m c s cs) = k.
Proof.
  revert t m c s cs; induction k as [|k IH];
    intros [|t0 t] [|m0 m] [|c0 c] [|s0 s] [|cs0 cs]; simpl; try discriminate;
    try reflexivity.
  intros [= Ht] [= Hm] [= Hc] [= Hs] [= Hcs]. f_equal. now apply IH.
Qed.

(** ** Frames with literal column names *)

Ltac frame_simpl :=
  cbn [lift get_int get_float get_str get_prob get_column set_column drop_column
       iter_rows filter columns map fst snd negb app
       String.eqb Ascii.eqb Bool.eqb].

(** ** The stream monad *)

Section GeneratorFacts.

Variable G : RandomState.

Lemma draw_n_length {A : Type} (step : rs_state G -> A * rs_state G) (n : nat)
      (g : rs_state G) :
  List.length (fst (draw_n step n g)) = n.
Proof.
  revert g; induction n as [|n IH]; intro g; simpl; auto.
  destruct (step g) as [x g1]. specialize (IH g1).
  destruct (draw_n step n g1) as [xs g2]. simpl in *. now rewrite IH.
Qed.

Lemma sized_nonneg {A : Type} (step : rs_state G -> A * rs_state G) (n : Z)
      (g : rs_state G) :
  (0 <= n)%Z -> sized step n g = Ok (draw_n step (Z.to_nat n) g).
Proof.
  intro Hn. unfold sized. destruct (Z.ltb_spec n 0); [lia | reflexivity].
Qed.

Lemma sized_negative {A : Type} (step : rs_state G -> A * rs_state G) (n : Z)
      (g : rs_state G) :
  (n < 0)%Z -> sized step n g = Raise (ValueError "negative dimensions are not allowed").
Proof.
  intro Hn. unfold sized. destruct (Z.ltb_spec n 0); [reflexivity | lia].
Qed.

(** Generation is "draw everything in order, then compute the columns". *)
Lemma build_features_draws (n seed : Z) (g0 : rs_state G) :
  (0 <= n)%Z -> valid_seed seed = true ->
  build_features G n seed g0
  = Ok (feature_frame n (fst (draw_all G (Z.to_nat n) (rs_seed G seed))),
        snd (draw_all G (Z.to_nat n) (rs_seed G seed))).
Proof.
  intros Hn Hseed.
  unfold build_features, bind, np_random_seed, np_random_normal, np_random_choice,
    np_random_exponential, np_random_uniform, np_random_poisson, draw_all.
  rewrite Hseed.
  repeat (try match goal with
              | |- context [weights_error ?k ?w] =>
                  change (weights_error k w) with (@None exn)
              end;
          cbv beta iota; cbn [List.length];
          rewrite sized_nonneg by exact Hn;
          match goal with
          | |- context [draw_n ?s ?k ?g] => destruct (draw_n s k g) as [? ?]
          end).
  frame_simpl.
  rewrite sized_nonneg by exact Hn.
  match goal with
  | |- context [draw_n ?s ?k ?g] => destruct (draw_n s k g) as [? ?]
  end.
  reflexivity.
Qed.

Lemma label_churn_frame (n : Z) (d : Draws) (g : rs_state G) :
  (0 <= n)%Z ->
  label_churn G n (feature_frame n d) g
  = Ok (final_frame n d (fst (draw_n (rs_random G) (Z.to_nat n) g)),
        snd (draw_n (rs_random G) (Z.to_nat n) g)).
Proof.
  intro Hn.
  unfold label_churn, bind, np_random_random, feature_frame, final_frame.
  frame_simpl.
  rewrite sized_nonneg by exact Hn.
  destruct (draw_n (rs_random G) (Z.to_nat n) g) as [us g2].
  frame_simpl. reflexivity.
Qed.

Lemma generate_draws (n seed : Z) (g0 : rs_state G) :
  (0 <= n)%Z -> valid_seed seed = true ->
  let dg := draw_all G (Z.to_nat n) (rs_seed G seed) in
  let ug := draw_n (rs_random G) (Z.to_nat n) (snd dg) in
  generate G n seed g0 = Ok (final_frame n (fst dg) (fst ug), snd ug).
Proof.
  intros Hn Hseed dg ug. unfold generate, bind.
  rewrite build_features_draws by assumption.
  apply label_churn_frame; exact Hn.
Qed.

Lemma draw_all_lengths (k : nat) (g : rs_state G) :
  draws_length k (fst (draw_all G k g)).
Proof.
  unfold draw_all, draws_length.
  repeat match goal with
         | |- context [draw_n ?s k ?g0] =>
             let H := fresh "L" in
             pose proof (draw_n_length s k g0) as H;
             destruct (draw_n s k g0) as [? ?]; cbn [fst] in H
         end.
  cbn. repeat split; assumption.
Qed.

End GeneratorFacts.

(** ** The shape of the generated table *)

Lemma count_from_length (a : Z) (k : nat) : List.length (count_from a k) = k.
Proof. revert a; induction k as [|k IH]; intro a; simpl; auto. Qed.

Lemma customer_ids_length (n : Z) : List.length (customer_ids n) = Z.to_nat n.
Proof.
  unfold customer_ids, py_range. rewrite length_map, count_from_length.
  f_equal. lia.
Qed.

Lemma rows_of_length (k : nat) (d : Draws) :
  draws_length k d -> List.length (rows_of d) = k.
Proof.
  unfold draws_length. intros H. decompose [and] H.
  unfold rows_of, tenure_column, monthly_column, contract_column, tickets_column,
    satisfaction_column, pick.
  apply zip_rows_length; rewrite length_map; assumption.
Qed.

Lemma churn_column_length (k : nat) (d : Draws) (us : list Q) :
  draws_length k d -> List.length us = k -> List.length (churn_column d us) = k.
Proof.
  intros Hd Hu. unfold churn_column.
  rewrite map2_length, length_map, (rows_of_length k d Hd), Hu. apply Nat.min_id.
Qed.

Lemma raw_total_length (k : nat) (d : Draws) :
  draws_length k d -> List.length (raw_total d) = k.
Proof.
  unfold draws_length. intros H. decompose [and] H.
  unfold raw_total, tenure_column, monthly_column.
  rewrite !map2_length, !length_map.
  repeat match goal with E : List.length _ = k |- _ => rewrite E; clear E end.
  rewrite !Nat.min_id. reflexivity.
Qed.

Lemma final_frame_rows (n : Z) (d : Draws) (us : list Q) :
  draws_length (Z.to_nat n) d -> List.length us = Z.to_nat n ->
  frame_rows (Z.to_nat n) (final_frame n d us).
Proof.
  intros Hd Hu.
  pose proof (churn_column_length _ d us Hd Hu) as Hc.
  pose proof (raw_total_length _ d Hd) as Ht.
  pose proof (customer_ids_length n) as Hi.
  unfold draws_length in Hd. decompose [and] Hd.
  unfold frame_rows, final_frame, feature_frame, age_column, tenure_column,
    monthly_column, contract_column, tickets_column, satisfaction_column,
    total_column, pick.
  cbn [app].
  repeat (apply Forall_cons; [cbn [snd column_length]; rewrite ?length_map; assumption|]).
  apply Forall_nil.
Qed.

Lemma final_frame_columns (n : Z) (d : Draws) (us : list Q) :
  columns (final_frame n d us) = model_fields.
Proof. reflexivity. Qed.

(** ** The generated table *)

Lemma generate_ok (G : RandomState) (n seed : Z) (g0 : rs_state G) :
  (0 <= n)%Z -> valid_seed seed = true ->
  exists us g1,
    let d := fst (draw_all G (Z.to_nat n) (rs_seed G seed)) in
    generate G n seed g0 = Ok (final_frame n d us, g1) /\
    draws_length (Z.to_nat n) d /\ List.length us = Z.to_nat n /\
    np_random_random G n (snd (draw_all G (Z.to_nat n) (rs_seed G seed))) = Ok (us, g1).
Proof.
  intros Hn Hseed.
  exists (fst (draw_n (rs_random G) (Z.to_nat n)
                 (snd (draw_all G (Z.to_nat n) (rs_seed G seed))))).
  exists (snd (draw_n (rs_random G) (Z.to_nat n)
                 (snd (draw_all G (Z.to_nat n) (rs_seed G seed))))).
  cbv zeta. split; [| split; [| split]].
  - apply generate_draws; assumption.
  - apply draw_all_lengths.
  - apply draw_n_length.
  - unfold np_random_random. rewrite sized_nonneg by exact Hn.
    now destruct (draw_n (rs_random G) (Z.to_nat n) _).
Qed.

Lemma plots_final_frame (n : Z) (d : Draws) (us : list Q) :
  plots (final_frame n d us)
  = Ok (final_frame n d us ++
        [ ("tenure_group",
           CatCol (pd_cut (map inject_Z (tenure_column d)) [-1; 12; 24; 48; 200]
                      ["0-1 year"; "1-2 years"; "2-4 years"; "4+ years"]));
          ("satisfaction_group",
           CatCol (pd_cut (satisfaction_column d) [0; 2; 3; 4; 5]
                      ["Poor (1-2)"; "Fair (2-3)"; "Good (3-4)"; "Excellent (4-5)"])) ])%list.
Proof. reflexivity. Qed.

(** ** Value ranges *)

(** C2: in every generated row [age] lies in [18, 90], [tenure_months] in
    [0, 200], [total_charges] is at least 0 and [support_tickets] is at
    least 0.  Generation succeeds, the four columns are there with one
    entry per row, and every entry is in its range. *)
Theorem generated_rows_in_range (G : RandomState) (n seed : Z) (g0 : rs_state G) :
  (0 < n)%Z -> valid_seed seed = true ->
  exists data g1 age tenure total tickets,
    generate G n seed g0 = Ok (data, g1) /\
    get_int "age" data = Ok age /\
    get_int "tenure_months" data = Ok tenure /\
    get_float "total_charges" data = Ok total /\
    get_int "support_tickets" data = Ok tickets /\
    frame_rows (Z.to_nat n) data /\
    Forall (fun a => (18 <= a <= 90)%Z) age /\
    Forall (fun t => (0 <= t <= 200)%Z) tenure /\
    Forall (fun c => 0 <= c) total /\
    Forall (fun s => (0 <= s)%Z) tickets.
Proof.
  intros Hn Hseed.
  destruct (generate_ok G n seed g0) as (us & g1 & Hgen & Hd & Hu & _);
    [lia | exact Hseed |].
  cbv zeta in Hgen, Hd.
  set (d := fst (draw_all G (Z.to_nat n) (rs_seed G seed))) in *.
  exists (final_frame n d us), g1, (age_column d), (tenure_column d),
    (total_column d), (tickets_column d).
  repeat split; try reflexivity; try exact Hgen.
  - now apply final_frame_rows.
  - unfold age_column. apply Forall_map, Forall_forall. intros x _.
    apply astype_int_range; apply (clip_range 18 90 x); unfold Qle; simpl; lia.
  - unfold tenure_column. apply Forall_map, Forall_forall. intros x _.
    apply astype_int_range; apply (clip_range 0 200 x); unfold Qle; simpl; lia.
  - unfold total_column. apply Forall_map, Forall_forall. intros x _.
    apply np_round_nonneg, clip_lower_range.
  - unfold tickets_column. apply Forall_map, Forall_forall. intros x _.
    apply N2Z.is_nonneg.
Qed.

Lemma generated_rows_in_range_witness :
  exists data g1 age tenure,
    generate lcg 4 42 0%Z = Ok (data, g1) /\
    get_int "age" data = Ok age /\ Forall (fun a => (18 <= a <= 90)%Z) age /\
    get_int "tenure_months" data = Ok tenure /\
    Forall (fun t => (0 <= t <= 200)%Z) tenure.
Proof.
  destruct (generated_rows_in_range lcg 4 42 0%Z)
    as (data & g1 & age & tenure & total & tickets & H);
    [lia | reflexivity |].
  exists data, g1, age, tenure. intuition.
Defined.



(** ** Determinism *)

(** C3: generation is deterministic.  The table, the exported files and
    the stream left behind depend on the record count and the seed only,
    not on the state of the global stream before the run; so a second run
    with the same count and seed, from whatever state the first one left,
    gives the same table and the same files. *)
Theorem generate_deterministic (G : RandomState) (n seed : Z) (g g' : rs_state G) :
  generate G n seed g = generate G n seed g' /\
  main G n seed g = main G n seed g'.
Proof.
  unfold main, generate, build_features, bind, np_random_seed.
  destruct (valid_seed seed); split; reflexivity.
Qed.

(** ** Columns: the export and the plots *)

(** C10: the intermediate [churn_prob] column is removed before the export.
    The table is the feature table with [churn_prob] and [churn] added and
    [churn_prob] dropped again; both exported files hold that table, whose
    columns are exactly the sixteen fields of the data model, without
    [churn_prob]. *)
Theorem export_has_no_churn_prob (G : RandomState) (n seed : Z) (g0 : rs_state G) :
  (0 < n)%Z -> valid_seed seed = true ->
  exists features gm rows churn data data' g1,
    build_features G n seed g0 = Ok (features, gm) /\
    iter_rows features = Ok rows /\
    data = drop_column "churn_prob"
             (set_column "churn" (StrCol churn)
                (set_column "churn_prob" (ProbCol (map calculate_churn_probability rows))
                   features)) /\
    generate G n seed g0 = Ok (data, g1) /\
    main G n seed g0
      = Ok (([ ("data/customer_churn_data.csv", data);
               ("data/customer_churn_clean.csv", data) ], data'), g1) /\
    columns data = model_fields /\
    ~ In "churn_prob" (columns data) /\
    get_column "churn_prob" data = None /\
    frame_rows (Z.to_nat n) data.
Proof.
  intros Hn Hseed.
  destruct (generate_ok G n seed g0) as (us & g1 & Hgen & Hd & Hu & _);
    [lia | exact Hseed |].
  cbv zeta in Hgen, Hd.
  set (d := fst (draw_all G (Z.to_nat n) (rs_seed G seed))) in *.
  exists (feature_frame n d), (snd (draw_all G (Z.to_nat n) (rs_seed G seed))),
    (rows_of d), (churn_column d us), (final_frame n d us).
  eexists. exists g1.
  split; [apply build_features_draws; [lia | exact Hseed] |].
  split; [reflexivity |].
  split; [reflexivity |].
  split; [exact Hgen |].
  split.
  { unfold main, bind. rewrite Hgen. cbv beta iota.
    rewrite plots_final_frame. reflexivity. }
  split; [reflexivity |].
  split.
  { rewrite final_frame_columns. unfold model_fields. cbn [In].
    intros H. repeat (destruct H as [H|H]; [discriminate H |]). exact H. }
  split; [reflexivity |].
  now apply final_frame_rows.
Qed.

Lemma export_has_no_churn_prob_witness :
  exists data g1,
    generate lcg 4 42 0%Z = Ok (data, g1) /\
    columns data = model_fields /\ ~ In "churn_prob" (columns data).
Proof.
  destruct (export_has_no_churn_prob lcg 4 42 0%Z)
    as (features & gm & rows & churn & data & data' & g1 & _ & _ & _ & Hg & _ & Hc & Hn & _);
    [lia | reflexivity |].
  exists data, g1. repeat split; assumption.
Defined.




(** ** The record count *)

(** C5, the claim as stated fails: a record count of zero is not refused.
    The run returns a table (of no rows) and raises nothing. *)
Lemma zero_count_is_accepted :
  (exists features gm, build_features lcg 0 the_seed 0%Z = Ok (features, gm)) /\
  (exists data g1, generate lcg 0 the_seed 0%Z = Ok (data, g1)) /\
  (forall e, generate lcg 0 the_seed 0%Z <> Raise e).
Proof.
  destruct (generate_ok lcg 0 the_seed 0%Z) as (us & g1 & Hgen & _);
    [lia | reflexivity |].
  cbv zeta in Hgen. split; [| split].
  - eexists. eexists. apply build_features_draws; [lia | reflexivity].
  - eexists. exists g1. exact Hgen.
  - intros e He. rewrite Hgen in He. discriminate He.
Qed.

(** C5, amended: the script has no check of the record count of its own.
    A negative count is refused by the first sampler call, before any
    column exists, with numpy's [ValueError]; a count of zero is accepted
    and gives the sixteen columns with no rows; and for every count above
    zero and every valid seed generation succeeds, with one row per
    customer. *)
Theorem record_count_handling (G : RandomState) (seed : Z) (g0 : rs_state G) :
  valid_seed seed = true ->
  (forall n, (n < 0)%Z ->
     generate G n seed g0 = Raise (ValueError "negative dimensions are not allowed")) /\
  (exists data g1,
     generate G 0 seed g0 = Ok (data, g1) /\
     columns data = model_fields /\ frame_rows 0 data) /\
  (forall n, (0 < n)%Z ->
     exists data g1,
       generate G n seed g0 = Ok (data, g1) /\
       columns data = model_fields /\ frame_rows (Z.to_nat n) data).
Proof.
  intros Hseed. split; [| split].
  - intros n Hn.
    unfold generate, build_features, bind, np_random_seed, np_random_normal.
    rewrite Hseed. rewrite sized_negative by exact Hn. reflexivity.
  - destruct (generate_ok G 0 seed g0) as (us & g1 & Hgen & Hd & Hu & _);
      [lia | exact Hseed |].
    cbv zeta in Hgen, Hd. eexists. exists g1.
    split; [exact Hgen |]. split; [reflexivity |].
    apply (final_frame_rows 0); assumption.
  - intros n Hn.
    destruct (generate_ok G n seed g0) as (us & g1 & Hgen & Hd & Hu & _);
      [lia | exact Hseed |].
    cbv zeta in Hgen, Hd. eexists. exists g1.
    split; [exact Hgen |]. split; [reflexivity |].
    apply final_frame_rows; assumption.
Qed.

Lemma record_count_handling_witness :
  generate lcg (-1) the_seed 0%Z
    = Raise (ValueError "negative dimensions are not allowed") /\
  (exists data g1,
     generate lcg n_customers the_seed 0%Z = Ok (data, g1) /\
     frame_rows (Z.to_nat n_customers) data).
Proof.
  destruct (record_count_handling lcg the_seed 0%Z) as (Hneg & _ & Hpos);
    [reflexivity |].
  split.
  - apply Hneg. lia.
  - destruct (Hpos n_customers) as (data & g1 & Hg & _ & Hr); [unfold n_customers; lia |].
    exists data, g1. split; [exact Hg | exact Hr].
Defined.

(** ** The churn score *)





(** ** Customer identifiers *)

Lemma count_from_In (a : Z) (k : nat) (x : Z) :
  In x (count_from a k) <-> (a <= x < a + Z.of_nat k)%Z.
Proof.
  revert a; induction k as [|k IH]; intro a.
  - simpl. lia.
  - cbn [count_from In]. rewrite IH. lia.
Qed.

Lemma count_from_NoDup (a : Z) (k : nat) : NoDup (count_from a k).
Proof.
  revert a; induction k as [|k IH]; intro a; cbn [count_from].
  - constructor.
  - constructor; [| apply IH]. rewrite count_from_In. lia.
Qed.

Lemma count_from_nth_error (a : Z) (k i : nat) :
  (i < k)%nat -> nth_error (count_from a k) i = Some (a + Z.of_nat i)%Z.
Proof.
  revert a i; induction k as [|k IH]; intros a [|i] Hi; try lia.
  - cbn. f_equal. lia.
  - cbn [count_from nth_error]. rewrite IH by lia. f_equal. lia.
Qed.

Lemma pad_number (k : nat) (s : string) (d : Decimal.uint) :
  NilEmpty.uint_of_string s = Some d ->
  exists d', NilEmpty.uint_of_string (repeat_char "0" k ++ s) = Some d' /\
             Pos.of_uint d' = Pos.of_uint d.
Proof.
  intro Hs. induction k as [|k (d' & Hd' & Hv)].
  - exists d. split; [exact Hs | reflexivity].
  - exists (Decimal.D0 d'). split.
    + cbn [repeat_char append NilEmpty.uint_of_string]. rewrite Hd'. reflexivity.
    + exact Hv.
Qed.

Lemma repeat_char_number (k : nat) :
  exists d', NilEmpty.uint_of_string (repeat_char "0" k) = Some d' /\
             Pos.of_uint d' = 0%N.
Proof.
  induction k as [|k (d' & Hd' & Hv)].
  - exists Decimal.Nil. split; reflexivity.
  - exists (Decimal.D0 d'). split.
    + cbn [repeat_char NilEmpty.uint_of_string]. rewrite Hd'. reflexivity.
    + exact Hv.
Qed.

(** Padding does not change the number a digit string denotes. *)
Lemma zfill_number (w : nat) (s : string) (d : Decimal.uint) :
  NilEmpty.uint_of_string s = Some d ->
  exists d', NilEmpty.uint_of_string (zfill w s) = Some d' /\
             Pos.of_uint d' = Pos.of_uint d.
Proof.
  intro Hs. unfold zfill. destruct s as [|c rest].
  - injection Hs as <-. apply repeat_char_number.
  - destruct (Ascii.eqb c "+" || Ascii.eqb c "-")%bool eqn:E.
    + exfalso. apply orb_true_iff in E. cbn [NilEmpty.uint_of_string] in Hs.
      destruct E as [E|E]; apply Ascii.eqb_eq in E; subst c;
        destruct (NilEmpty.uint_of_string rest); discriminate Hs.
    + now apply pad_number.
Qed.

Lemma customer_id_number (i : Z) :
  (1 <= i)%Z -> id_number (customer_id i) = Some (Z.to_N i).
Proof.
  intro Hi. destruct i as [|p|p]; try lia.
  unfold id_number, customer_id, py_str.
  change (string_drop 4 ("CUST" ++ ?x)) with x.
  cbn [Z.to_int NilZero.string_of_int].
  assert (Hs : NilEmpty.uint_of_string (NilZero.string_of_uint (Pos.to_uint p))
               = Some (Pos.to_uint p)).
  { pose proof (DecimalPos.Unsigned.to_uint_nonnil p) as Hnil.
    unfold NilZero.string_of_uint.
    destruct (Pos.to_uint p); try (now destruct Hnil); apply NilEmpty.usu. }
  destruct (zfill_number 5 _ _ Hs) as (d' & Hd' & Hv).
  rewrite Hd'. cbn [option_map]. rewrite Hv, DecimalPos.Unsigned.of_to. reflexivity.
Qed.

Lemma customer_ids_NoDup (n : Z) : NoDup (customer_ids n).
Proof.
  unfold customer_ids, py_range.
  apply NoDup_map_NoDup_ForallPairs; [| apply count_from_NoDup].
  intros x y Hx Hy E.
  apply count_from_In in Hx, Hy.
  pose proof (customer_id_number x ltac:(lia)) as Nx.
  pose proof (customer_id_number y ltac:(lia)) as Ny.
  rewrite E in Nx. rewrite Nx in Ny. injection Ny as Ny. lia.
Qed.

Lemma customer_ids_nth_error (n : Z) (k : nat) :
  (k < Z.to_nat n)%nat ->
  nth_error (customer_ids n) k = Some (customer_id (Z.of_nat k + 1)).
Proof.
  intro Hk. unfold customer_ids, py_range.
  rewrite nth_error_map, count_from_nth_error by lia.
  cbn [option_map]. do 2 f_equal. lia.
Qed.

Lemma customer_ids_In (n i : Z) :
  (1 <= i <= n)%Z -> In (customer_id i) (customer_ids n).
Proof.
  intro Hi. unfold customer_ids, py_range.
  apply in_map, count_from_In. lia.
Qed.

(** Every sequence number up to 99999 is written in the five-digit format. *)
Lemma five_digit_ids :
  forallb (fun i => id_format_ok (customer_id i)) (py_range 1 100000) = true.
Proof. vm_compute. reflexivity. Qed.

Lemma customer_ids_format (n : Z) :
  (n <= 99999)%Z -> Forall (fun s => id_format_ok s = true) (customer_ids n).
Proof.
  intro Hn. unfold customer_ids, py_range.
  apply Forall_map, Forall_forall. intros i Hi.
  apply count_from_In in Hi.
  pose proof five_digit_ids as H. rewrite forallb_forall in H.
  apply H. unfold py_range. apply count_from_In. lia.
Qed.

(** C6, the claim as stated fails: with 100000 records the last identifier
    is [CUST100000], six digits after the letters. *)
Lemma sixth_digit_identifier :
  exists data g1 ids,
    generate lcg 100000 42 0%Z = Ok (data, g1) /\
    get_str "customer_id" data = Ok ids /\
    In "CUST100000" ids /\
    id_format_ok "CUST100000" = false.
Proof.
  destruct (generate_ok lcg 100000 42 0%Z) as (us & g1 & Hgen & _);
    [lia | reflexivity |].
  cbv zeta in Hgen.
  eexists. exists g1, (customer_ids 100000).
  split; [exact Hgen |]. split; [reflexivity |]. split; [| reflexivity].
  change "CUST100000" with (customer_id 100000).
  apply customer_ids_In. lia.
Qed.

(** C6, amended: for every record count above zero the identifiers of the
    rows are pairwise distinct, and row [k] (from 0) carries [CUST] followed
    by the sequence number [k + 1] padded with zeros to at least five
    digits.  That is the five-digit format as long as the count is at most
    99999; a larger count has identifiers outside the format. *)
Theorem customer_ids_distinct (G : RandomState) (n seed : Z) (g0 : rs_state G) :
  (0 < n)%Z -> valid_seed seed = true ->
  exists data g1 ids,
    generate G n seed g0 = Ok (data, g1) /\
    get_str "customer_id" data = Ok ids /\
    List.length ids = Z.to_nat n /\
    NoDup ids /\
    (forall k, (k < Z.to_nat n)%nat ->
       nth_error ids k = Some (customer_id (Z.of_nat k + 1)) /\
       id_number (customer_id (Z.of_nat k + 1)) = Some (N.of_nat k + 1)%N) /\
    ((n <= 99999)%Z -> Forall (fun s => id_format_ok s = true) ids) /\
    ((99999 < n)%Z -> exists s, In s ids /\ id_format_ok s = false).
Proof.
  intros Hn Hseed.
  destruct (generate_ok G n seed g0) as (us & g1 & Hgen & _); [lia | exact Hseed |].
  cbv zeta in Hgen.
  eexists. exists g1, (customer_ids n).
  split; [exact Hgen |]. split; [reflexivity |].
  split; [apply customer_ids_length |].
  split; [apply customer_ids_NoDup |].
  split; [| split].
  - intros k Hk. split; [now apply customer_ids_nth_error |].
    rewrite customer_id_number by lia. f_equal. lia.
  - apply customer_ids_format.
  - intro Hbig. exists (customer_id 100000). split; [| reflexivity].
    apply customer_ids_In. lia.
Qed.

Lemma customer_ids_distinct_witness :
  exists data g1 ids,
    generate lcg n_customers the_seed 0%Z = Ok (data, g1) /\
    get_str "customer_id" data = Ok ids /\
    NoDup ids /\ Forall (fun s => id_format_ok s = true) ids.
Proof.
  destruct (customer_ids_distinct lcg n_customers the_seed 0%Z)
    as (data & g1 & ids & Hg & Hi & _ & Hd & _ & Hf & _);
    [unfold n_customers; lia | reflexivity |].
  exists data, g1, ids.
  split; [exact Hg |]. split; [exact Hi |]. split; [exact Hd |].
  apply Hf. unfold n_customers. lia.
Defined.

(** ** The two example rows *)

(** C7, the claim as stated fails: in the arithmetic of the script the
    logit of the second example row is not 4.1.  The double it computes is
    not the one the literal [4.1] denotes, and its exact value is not
    41/10. *)
Lemma example_high_logit_is_not_4_1 :
  PrimFloat.eqb (calculate_logit (A:=float) example_high) 4.1%float = false /\
  (forall q, float_to_Q (calculate_logit (A:=float) example_high) = Some q ->
             ~ q == 41 # 10).
Proof.
  split.
  - vm_compute. reflexivity.
  - intros q Hq. vm_compute in Hq. injection Hq as <-.
    vm_compute. discriminate.
Qed.

(** C7, amended: in exact arithmetic the two logits are -4.1 and 4.1.  In
    binary64, as the script computes them, the first is the double nearest
    to -4.1, and the second is 4.1000000000000005, the next double above
    the one nearest to 4.1, less than 10^-15 away from 4.1.  The sigmoid
    probabilities are 0.0163 and 0.9836 to within 0.0001. *)
Theorem example_logits :
  calculate_logit (A:=Q) example_low == - (41 # 10) /\
  calculate_logit (A:=Q) example_high == 41 # 10 /\
  calculate_logit (A:=float) example_low = (-4.1)%float /\
  calculate_logit (A:=float) example_high = 4.1000000000000005%float /\
  PrimFloat.next_up 4.1%float = 4.1000000000000005%float /\
  (exists q, float_to_Q (calculate_logit (A:=float) example_high) = Some q /\
             41 # 10 < q /\ q - (41 # 10) < 1 # (10 ^ 15)) /\
  (Rabs (calculate_churn_probability example_low - 0.0163) < 0.0001)%R /\
  (Rabs (calculate_churn_probability example_high - 0.9836) < 0.0001)%R.
Proof.
  split; [vm_compute; reflexivity |].
  split; [vm_compute; reflexivity |].
  split; [vm_compute; reflexivity |].
  split; [vm_compute; reflexivity |].
  split; [vm_compute; reflexivity |].
  split.
  { eexists. split; [vm_compute; reflexivity |].
    split; vm_compute; reflexivity. }
  unfold calculate_churn_probability. rewrite !calculate_logit_spec. split.
  - replace (spec_logit example_low) with (-4.1)%R
      by (unfold spec_logit, example_low, Q2R; simpl; lra).
    exact sigmoid_minus_4_1.
  - replace (spec_logit example_high) with 4.1%R
      by (unfold spec_logit, example_high, Q2R; simpl; lra).
    exact sigmoid_plus_4_1.
Qed.

(** * Further properties of the script *)

(** ** Assigning, reading and dropping columns *)

Lemma get_set_same (k : string) (c : column) (df : DataFrame) :
  get_column k (set_column k c df) = Some c.
Proof.
  induction df as [|[k0 c0] df IH]; cbn [set_column get_column].
  - now rewrite String.eqb_refl.
  - destruct (String.eqb k0 k) eqn:E; cbn [get_column]; rewrite E; [reflexivity | exact IH].
Qed.

Lemma get_set_other (k k' : string) (c : column) (df : DataFrame) :
  k <> k' -> get_column k' (set_column k c df) = get_column k' df.
Proof.
  intro Hne. induction df as [|[k0 c0] df IH]; cbn [set_column get_column].
  - apply String.eqb_neq in Hne. now rewrite Hne.
  - destruct (String.eqb k0 k) eqn:E; cbn [get_column].
    + apply String.eqb_eq in E. subst k0.
      apply String.eqb_neq in Hne. now rewrite Hne.
    + now rewrite IH.
Qed.












(** ** Labelling any table *)




(** X4: a table with rows that lacks a column of the churn model is
    refused with a [KeyError] that names the first missing column, in the
    order the function reads them: [tenure_months], [monthly_charges],
    [contract_type], [support_tickets], [customer_satisfaction].  No
    number is drawn from the stream before the error. *)
Theorem label_churn_missing_column (G : RandomState) (n : Z) (df : DataFrame)
        (g : rs_state G) :
  (0 < frame_len df)%nat ->
  (get_column "tenure_months" df = None ->
   label_churn G n df g = Raise (KeyError "tenure_months")) /\
  (forall t, get_column "tenure_months" df = Some (IntCol t) ->
   get_column "monthly_charges" df = None ->
   label_churn G n df g = Raise (KeyError "monthly_charges")) /\
  (forall t m, get_column "tenure_months" df = Some (IntCol t) ->
   get_column "monthly_charges" df = Some (FloatCol m) ->
   get_column "contract_type" df = None ->
   label_churn G n df g = Raise (KeyError "contract_type")) /\
  (forall t m c, get_column "tenure_months" df = Some (IntCol t) ->
   get_column "monthly_charges" df = Some (FloatCol m) ->
   get_column "contract_type" df = Some (StrCol c) ->
   get_column "support_tickets" df = None ->
   label_churn G n df g = Raise (KeyError "support_tickets")) /\
  (forall t m c s, get_column "tenure_months" df = Some (IntCol t) ->
   get_column "monthly_charges" df = Some (FloatCol m) ->
   get_column "contract_type" df = Some (StrCol c) ->
   get_column "support_tickets" df = Some (IntCol s) ->
   get_column "customer_satisfaction" df = None ->
   label_churn G n df g = Raise (KeyError "customer_satisfaction")).
Proof.
  intros _.
  unfold label_churn, bind, lift, iter_rows, get_int, get_float, get_str.
  repeat split; intros;
    repeat match goal with H : get_column _ df = _ |- _ => rewrite H; clear H end;
    reflexivity.
Qed.

Lemma label_churn_missing_column_witness :
  label_churn lcg 1 [("tenure_months", IntCol [12%Z])] 42%Z
  = Raise (KeyError "monthly_charges").
Proof.
  destruct (label_churn_missing_column lcg 1 [("tenure_months", IntCol [12%Z])] 42%Z)
    as (_ & H & _); [simpl; lia |].
  apply (H [12%Z]); reflexivity.
Defined.

(** ** The churn rate *)

Lemma count_true_le (m : list bool) : (count_true m <= List.length m)%nat.
Proof. unfold count_true. apply filter_length_le. Qed.

Lemma churn_rate_nonempty (data : DataFrame) (c : string) (cs : list string) :
  get_column "churn" data = Some (StrCol (c :: cs)) ->
  exists r,
    churn_rate data = Ok (Some r) /\
    r == inject_Z (Z.of_nat (count_true (eq_mask "Yes" (c :: cs))))
         / inject_Z (Z.of_nat (List.length (c :: cs))) * 100 /\
    0 <= r /\ r <= 100.
Proof.
  unfold churn_rate, get_str. intros ->.
  set (m := eq_mask "Yes" (c :: cs)).
  assert (Hlen : List.length m = S (List.length cs))
    by (unfold m, eq_mask; rewrite length_map; reflexivity).
  pose proof (count_true_le m) as Hle.
  assert (Hm : mask_mean m
               = Some (Qmake (Z.of_nat (count_true m)) (Pos.of_nat (List.length m))))
    by reflexivity.
  rewrite Hm. cbn [option_map]. eexists. split; [reflexivity |].
  assert (Hpos : Zpos (Pos.of_nat (List.length m)) = Z.of_nat (List.length m)).
  { rewrite Hlen. lia. }
  assert (Hval : Qmake (Z.of_nat (count_true m)) (Pos.of_nat (List.length m))
                 == inject_Z (Z.of_nat (count_true m))
                    / inject_Z (Z.of_nat (List.length (c :: cs)))).
  { rewrite (Qmake_Qdiv (Z.of_nat (count_true m)) (Pos.of_nat (List.length m))).
    rewrite Hpos, Hlen. reflexivity. }
  split; [now rewrite Hval |].
  unfold Qle, Qmult; cbn [Qnum Qden]. rewrite Pos.mul_1_r, Hpos. split; lia.
Qed.

(** X5: the churn rate of lines 79 and 422, [(churn == 'Yes').mean() * 100].
    On a table without rows it is NaN; otherwise it is the number of [Yes]
    rows over the number of rows, times 100, a value between 0 and 100.
    A table without a [churn] column gives a [KeyError]. *)
Theorem churn_rate_range (data : DataFrame) :
  (get_column "churn" data = None -> churn_rate data = Raise (KeyError "churn")) /\
  (get_column "churn" data = Some (StrCol []) -> churn_rate data = Ok None) /\
  (forall c cs, get_column "churn" data = Some (StrCol (c :: cs)) ->
     exists r,
       churn_rate data = Ok (Some r) /\
       r == inject_Z (Z.of_nat (count_true (eq_mask "Yes" (c :: cs))))
            / inject_Z (Z.of_nat (List.length (c :: cs))) * 100 /\
       0 <= r /\ r <= 100).
Proof.
  split; [unfold churn_rate, get_str; intros ->; reflexivity |].
  split; [unfold churn_rate, get_str; intros ->; reflexivity |].
  intros c cs. apply churn_rate_nonempty.
Qed.

Lemma churn_rate_range_witness :
  churn_rate [("churn", StrCol ["Yes"; "No"; "No"; "No"])] = Ok (Some (100 # 4)) /\
  churn_rate [("churn", StrCol [])] = Ok None.
Proof.
  destruct (churn_rate_range [("churn", StrCol [])]) as (_ & H0 & _).
  destruct (churn_rate_range [("churn", StrCol ["Yes"; "No"; "No"; "No"])])
    as (_ & _ & H1).
  split; [| apply H0; reflexivity].
  destruct (H1 "Yes" ["No"; "No"; "No"] eq_refl) as (r & Hr & _). reflexivity.
Defined.

(** ** The labels of a generated table *)

Lemma map2_Forall {A B C : Type} (f : A -> B -> C) (P : C -> Prop)
      (xs : list A) (ys : list B) :
  (forall x y, P (f x y)) -> Forall P (map2 f xs ys).
Proof.
  intro H. revert ys; induction xs as [|x xs IH]; intros [|y ys]; cbn [map2];
    constructor; auto.
Qed.

Lemma churn_label_cases (u : Q) (p : R) : churn_label u p = "Yes" \/ churn_label u p = "No".
Proof. unfold churn_label. destruct (Rlt_dec (Q2R u) p); auto. Qed.

Lemma yes_no_counts (cs : list string) :
  Forall (fun c => c = "Yes" \/ c = "No") cs ->
  (count_true (eq_mask "Yes" cs) + count_true (eq_mask "No" cs) = List.length cs)%nat.
Proof.
  unfold count_true, eq_mask.
  induction 1 as [|c cs [-> | ->] _ IH]; cbn [map filter List.length String.eqb] in *.
  - reflexivity.
  - cbn. lia.
  - cbn. lia.
Qed.

(** X6: every row of a generated table is labelled [Yes] or [No] and
    nothing else, so the rows counted as [Yes] and those counted as [No]
    add up to all rows, and the churn rate printed by the script is a
    number between 0 and 100. *)
Theorem churn_labels_partition (G : RandomState) (n seed : Z) (g0 : rs_state G) :
  (0 < n)%Z -> valid_seed seed = true ->
  exists data g1 churn r,
    generate G n seed g0 = Ok (data, g1) /\
    get_str "churn" data = Ok churn /\
    Forall (fun c => c = "Yes" \/ c = "No") churn /\
    (count_true (eq_mask "Yes" churn) + count_true (eq_mask "No" churn)
     = Z.to_nat n)%nat /\
    churn_rate data = Ok (Some r) /\ 0 <= r /\ r <= 100.
Proof.
  intros Hn Hseed.
  destruct (generate_ok G n seed g0) as (us & g1 & Hgen & Hd & Hu & _);
    [lia | exact Hseed |].
  cbv zeta in Hgen, Hd.
  set (d := fst (draw_all G (Z.to_nat n) (rs_seed G seed))) in *.
  pose proof (churn_column_length _ d us Hd Hu) as Hlen.
  assert (Hyn : Forall (fun c => c = "Yes" \/ c = "No") (churn_column d us)).
  { unfold churn_column. apply map2_Forall. intros; apply churn_label_cases. }
  destruct (churn_column d us) as [|c cs] eqn:Ec.
  { cbn [List.length] in Hlen. lia. }
  destruct (churn_rate_nonempty (final_frame n d us) c cs) as (r & Hr & _ & H0 & H100).
  { unfold final_frame, feature_frame. rewrite Ec. reflexivity. }
  exists (final_frame n d us), g1, (c :: cs), r.
  split; [exact Hgen |].
  split; [unfold final_frame, feature_frame; rewrite Ec; reflexivity |].
  split; [exact Hyn |].
  split; [rewrite (yes_no_counts _ Hyn); exact Hlen |].
  repeat split; assumption.
Qed.

Lemma churn_labels_partition_witness :
  exists data g1 r,
    generate lcg 4 the_seed 0%Z = Ok (data, g1) /\
    churn_rate data = Ok (Some r) /\ 0 <= r /\ r <= 100.
Proof.
  destruct (churn_labels_partition lcg 4 the_seed 0%Z)
    as (data & g1 & churn & r & Hg & _ & _ & _ & Hr & H0 & H1);
    [lia | reflexivity |].
  exists data, g1, r. repeat split; assumption.
Defined.

(** ** Tenure groups *)






(** ** Rounding *)

Lemma np_rint_cases (y : Q) :
  let f := Qfloor y in
  (np_rint y = f /\ y - inject_Z f <= 1 # 2) \/
  (np_rint y = (f + 1)%Z /\ 1 # 2 <= y - inject_Z f).
Proof.
  intro f. unfold np_rint. fold f.
  destruct (Qcompare (y - inject_Z f) (1 # 2)) eqn:E.
  - apply Qeq_alt in E.
    destruct (Z.even f); [left | right]; split; try reflexivity;
      rewrite E; apply Qle_refl.
  - apply Qlt_alt in E. left. split; [reflexivity | now apply Qlt_le_weak].
  - apply Qgt_alt in E. right. split; [reflexivity | now apply Qlt_le_weak].
Qed.


Lemma np_rint_integer (z : Z) : np_rint (inject_Z z) = z.
Proof.
  unfold np_rint. rewrite Qfloor_Z.
  assert (E : inject_Z z - inject_Z z == 0) by ring.
  assert (H : Qcompare (inject_Z z - inject_Z z) (1 # 2) = Lt).
  { apply Qlt_alt. rewrite E. reflexivity. }
  now rewrite H.
Qed.

Lemma np_rint_monotone (x y : Q) : x <= y -> (np_rint x <= np_rint y)%Z.
Proof.
  intro Hxy.
  pose proof (Qfloor_resp_le x y Hxy) as Hf.
  destruct (Z.eq_dec (Qfloor x) (Qfloor y)) as [Heq|Hne].
  - unfold np_rint. rewrite <- Heq.
    destruct (Qcompare (x - inject_Z (Qfloor x)) (1 # 2)) eqn:Ex;
      destruct (Qcompare (y - inject_Z (Qfloor x)) (1 # 2)) eqn:Ey;
      try (destruct (Z.even (Qfloor x))); try lia;
      repeat match goal with
             | H : Qcompare _ _ = Eq |- _ => apply Qeq_alt in H
             | H : Qcompare _ _ = Lt |- _ => apply Qlt_alt in H
             | H : Qcompare _ _ = Gt |- _ => apply Qgt_alt in H
             end;
      exfalso; Lqa.lra.
  - assert (Hlt : (Qfloor x + 1 <= Qfloor y)%Z) by lia.
    destruct (np_rint_cases x) as [[-> _]|[-> _]];
      destruct (np_rint_cases y) as [[-> _]|[-> _]]; lia.
Qed.

Lemma pow10_scale (d : nat) (z : Z) :
  inject_Z z * inject_Z (Zpos (pow10 d)) == inject_Z (z * Zpos (pow10 d)).
Proof. now rewrite inject_Z_mult. Qed.

Lemma Qmake_scaled (z : Z) (p : positive) :
  Qmake z p * inject_Z (Zpos p) == inject_Z z.
Proof. unfold Qeq, Qmult, inject_Z; cbn [Qnum Qden]. lia. Qed.

Lemma Qmake_as_div (z : Z) (p : positive) :
  Qmake z p == inject_Z z / inject_Z (Zpos p).
Proof. apply Qmake_Qdiv. Qed.


Lemma np_round_monotone (d : nat) (x y : Q) : x <= y -> np_round d x <= np_round d y.
Proof.
  intro Hxy. unfold np_round, Qle; cbn [Qnum Qden].
  apply Z.mul_le_mono_nonneg_r; [lia |].
  apply np_rint_monotone.
  apply Qmult_le_compat_r; [exact Hxy |].
  unfold Qle, inject_Z; cbn [Qnum Qden]. lia.
Qed.

Lemma np_round_grid (d : nat) (z : Z) : np_round d (Qmake z (pow10 d)) = Qmake z (pow10 d).
Proof.
  unfold np_round. f_equal.
  unfold np_rint.
  assert (Hf : Qfloor (Qmake z (pow10 d) * inject_Z (Zpos (pow10 d))) = z).
  { rewrite (Qfloor_comp _ _ (Qmake_scaled z (pow10 d))). apply Qfloor_Z. }
  rewrite Hf.
  assert (H : Qcompare (Qmake z (pow10 d) * inject_Z (Zpos (pow10 d)) - inject_Z z) (1 # 2)
              = Lt).
  { apply Qlt_alt. rewrite Qmake_scaled.
    setoid_replace (inject_Z z - inject_Z z) with 0 by ring. reflexivity. }
  now rewrite H.
Qed.

Lemma np_round_integer (d : nat) (z : Z) : np_round d (inject_Z z) == inject_Z z.
Proof.
  unfold np_round.
  rewrite (Qmake_as_div _ (pow10 d)).
  assert (E : np_rint (inject_Z z * inject_Z (Zpos (pow10 d))) = (z * Zpos (pow10 d))%Z).
  { unfold np_rint.
    assert (Hq : inject_Z z * inject_Z (Zpos (pow10 d)) == inject_Z (z * Zpos (pow10 d)))
      by apply pow10_scale.
    rewrite (Qfloor_comp _ _ Hq), Qfloor_Z.
    assert (H : Qcompare (inject_Z z * inject_Z (Zpos (pow10 d))
                          - inject_Z (z * Zpos (pow10 d))) (1 # 2) = Lt).
    { apply Qlt_alt. rewrite Hq.
      setoid_replace (inject_Z (z * Zpos (pow10 d)) - inject_Z (z * Zpos (pow10 d)))
        with 0 by ring.
      reflexivity. }
    now rewrite H. }
  rewrite E, inject_Z_mult. field.
  unfold Qeq, inject_Z; cbn [Qnum Qden]. lia.
Qed.

Lemma np_round_range (d : nat) (a b : Z) (x : Q) :
  inject_Z a <= x -> x <= inject_Z b ->
  inject_Z a <= np_round d x /\ np_round d x <= inject_Z b.
Proof.
  intros Ha Hb. split.
  - rewrite <- (np_round_integer d a). now apply np_round_monotone.
  - rewrite <- (np_round_integer d b). now apply np_round_monotone.
Qed.


(** X9: rounding is idempotent and order preserving.  A value that
    already has [d] decimals is returned as it is, so rounding twice is
    rounding once; and a larger value never rounds to a smaller one. *)
Theorem rounding_idempotent_monotone (d : nat) (x y : Q) :
  np_round d (np_round d x) = np_round d x /\
  (forall z, np_round d (Qmake z (pow10 d)) = Qmake z (pow10 d)) /\
  (x <= y -> np_round d x <= np_round d y).
Proof.
  split; [| split].
  - unfold np_round at 2 3. apply np_round_grid.
  - apply np_round_grid.
  - apply np_round_monotone.
Qed.

Lemma rounding_idempotent_monotone_witness :
  np_round 2 (np_round 2 (12345 # 1000)) = np_round 2 (12345 # 1000) /\
  np_round 2 (12345 # 1000) <= np_round 2 (12355 # 1000).
Proof.
  destruct (rounding_idempotent_monotone 2 (12345 # 1000) (12355 # 1000))
    as (Hi & _ & Hm).
  split; [exact Hi |]. apply Hm. unfold Qle; simpl; lia.
Defined.

(** X10: rounding keeps a value between two whole numbers that enclose
    it.  So a monthly charge drawn in [20, 120] is still in [20, 120]
    after it is rounded to two decimals, and a satisfaction drawn in
    [1, 5] is still in [1, 5] after it is rounded to one. *)
Theorem rounding_keeps_range (d : nat) (a b : Z) (x : Q) :
  inject_Z a <= x -> x <= inject_Z b ->
  inject_Z a <= np_round d x /\ np_round d x <= inject_Z b.
Proof. apply np_round_range. Qed.

Lemma rounding_keeps_range_witness :
  20 <= np_round 2 (119999 # 1000) /\ np_round 2 (119999 # 1000) <= 120.
Proof.
  apply (rounding_keeps_range 2 20 120 (119999 # 1000)); unfold Qle; simpl; lia.
Defined.

(** ** Satisfaction groups *)

Lemma Qle_bool_true (x y : Q) : Qle_bool x y = true <-> x <= y.
Proof. apply Qle_bool_iff. Qed.

Lemma Qle_bool_false (x y : Q) : Qle_bool x y = false <-> y < x.
Proof.
  split.
  - intro H. apply Qnot_le_lt. intro Hle. apply Qle_bool_iff in Hle. congruence.
  - intro H. destruct (Qle_bool x y) eqn:E; [| reflexivity].
    apply Qle_bool_iff in E. exfalso. apply (Qlt_not_le _ _ H E).
Qed.

Lemma satisfaction_group_of (x : Q) :
  let grp := cut_value x [0; 2; 3; 4; 5]
               ["Poor (1-2)"; "Fair (2-3)"; "Good (3-4)"; "Excellent (4-5)"] in
  (x <= 0 \/ 5 < x -> grp = None) /\
  (0 < x /\ x <= 2 -> grp = Some "Poor (1-2)") /\
  (2 < x /\ x <= 3 -> grp = Some "Fair (2-3)") /\
  (3 < x /\ x <= 4 -> grp = Some "Good (3-4)") /\
  (4 < x /\ x <= 5 -> grp = Some "Excellent (4-5)").
Proof.
  cbn [cut_value].
  destruct (Qle_bool x 0) eqn:E0; destruct (Qle_bool x 2) eqn:E2;
    destruct (Qle_bool x 3) eqn:E3; destruct (Qle_bool x 4) eqn:E4;
    destruct (Qle_bool x 5) eqn:E5; cbn [negb andb];
    repeat match goal with
           | H : Qle_bool _ _ = true |- _ => apply Qle_bool_true in H
           | H : Qle_bool _ _ = false |- _ => apply Qle_bool_false in H
           end;
    repeat split; intros; try reflexivity; exfalso; Lqa.lra.
Qed.

(** X11: the satisfaction groups of line 177.  A value is put in
    [Poor (1-2)] when it is above 0 and at most 2, in [Fair (2-3)] above 2
    up to 3, in [Good (3-4)] above 3 up to 4, in [Excellent (4-5)] above 4
    up to 5: a value on an edge belongs to the group below it.  Values of
    0 or less, or above 5, get no group (NaN).  A satisfaction that was
    drawn in [1, 5] and rounded to one decimal always gets a group. *)
Theorem satisfaction_groups (x : Q) :
  let grp := fun v => cut_value v [0; 2; 3; 4; 5]
               ["Poor (1-2)"; "Fair (2-3)"; "Good (3-4)"; "Excellent (4-5)"] in
  (x <= 0 \/ 5 < x -> grp x = None) /\
  (0 < x /\ x <= 2 -> grp x = Some "Poor (1-2)") /\
  (2 < x /\ x <= 3 -> grp x = Some "Fair (2-3)") /\
  (3 < x /\ x <= 4 -> grp x = Some "Good (3-4)") /\
  (4 < x /\ x <= 5 -> grp x = Some "Excellent (4-5)") /\
  (1 <= x /\ x <= 5 -> exists label, grp (np_round 1 x) = Some label).
Proof.
  intro grp. unfold grp.
  destruct (satisfaction_group_of x) as (H0 & H1 & H2 & H3 & H4).
  repeat (split; [assumption |]).
  intros [Hlo Hhi].
  destruct (np_round_range 1 1 5 x Hlo Hhi) as [Rlo Rhi].
  change (inject_Z 1) with 1 in Rlo. change (inject_Z 5) with 5 in Rhi.
  destruct (satisfaction_group_of (np_round 1 x)) as (_ & G1 & G2 & G3 & G4).
  destruct (Qlt_le_dec 2 (np_round 1 x)) as [L2|L2];
    [destruct (Qlt_le_dec 3 (np_round 1 x)) as [L3|L3];
     [destruct (Qlt_le_dec 4 (np_round 1 x)) as [L4|L4] |] |].
  - eexists. apply G4. split; assumption.
  - eexists. apply G3. split; assumption.
  - eexists. apply G2. split; assumption.
  - eexists. apply G1. split; [Lqa.lra | assumption].
Qed.

Lemma satisfaction_groups_witness :
  cut_value 2 [0; 2; 3; 4; 5]
    ["Poor (1-2)"; "Fair (2-3)"; "Good (3-4)"; "Excellent (4-5)"] = Some "Poor (1-2)" /\
  cut_value (51 # 10) [0; 2; 3; 4; 5]
    ["Poor (1-2)"; "Fair (2-3)"; "Good (3-4)"; "Excellent (4-5)"] = None /\
  exists label,
    cut_value (np_round 1 (496 # 100)) [0; 2; 3; 4; 5]
      ["Poor (1-2)"; "Fair (2-3)"; "Good (3-4)"; "Excellent (4-5)"] = Some label.
Proof.
  destruct (satisfaction_groups 2) as (_ & H1 & _).
  destruct (satisfaction_groups (51 # 10)) as (H0 & _).
  destruct (satisfaction_groups (496 # 100)) as (_ & _ & _ & _ & _ & H5).
  split; [apply H1; split; [reflexivity | unfold Qle; simpl; lia] |].
  split; [apply H0; right; reflexivity |].
  apply H5. split; unfold Qle; simpl; lia.
Defined.

(** ** Age: saturation at the ends *)

Lemma astype_int_floor (x : Q) : 0 <= x -> astype_int x = Qfloor x.
Proof.
  destruct x as [p q]. unfold Qle, astype_int, Qfloor; cbn [Qnum Qden].
  intro H. apply Z.quot_div_nonneg; lia.
Qed.

Lemma Qfloor_between (k : Z) (x : Q) :
  inject_Z k <= x -> x < inject_Z (k + 1) -> Qfloor x = k.
Proof.
  intros Hlo Hhi.
  pose proof (Qfloor_resp_le _ _ Hlo) as H1. rewrite Qfloor_Z in H1.
  pose proof (Qfloor_le x) as H2.
  assert (H3 : inject_Z (Qfloor x) < inject_Z (k + 1)) by (eapply Qle_lt_trans; eassumption).
  rewrite <- Zlt_Qlt in H3. lia.
Qed.

(** X12: how a draw becomes an age (line 38).  Every draw below 19 gives
    age 18 and every draw of 90 or more gives age 90, so the two ends of
    the range collect all the draws outside it; a draw inside the range
    gives its integer part. *)
Theorem age_of_draw (x : Q) :
  (x < 19 -> astype_int (clip 18 90 x) = 18%Z) /\
  (90 <= x -> astype_int (clip 18 90 x) = 90%Z) /\
  (18 <= x /\ x <= 90 -> astype_int (clip 18 90 x) = Qfloor x).
Proof.
  unfold clip, np_minimum, np_maximum.
  destruct (Qle_bool x 18) eqn:E18.
  - apply Qle_bool_true in E18.
    change (Qle_bool 18 90) with true. cbv iota.
    split; [reflexivity |]. split.
    + intro H. exfalso. Lqa.lra.
    + intros [Hlo Hhi]. symmetry. apply (Qfloor_between 18).
      * exact Hlo.
      * change (inject_Z (18 + 1)) with 19. Lqa.lra.
  - apply Qle_bool_false in E18.
    destruct (Qle_bool x 90) eqn:E90.
    + apply Qle_bool_true in E90.
      assert (Hx : 0 <= x) by Lqa.lra.
      rewrite (astype_int_floor x Hx).
      split; [| split].
      * intro H. apply (Qfloor_between 18);
          [change (inject_Z 18) with 18; Lqa.lra | change (inject_Z (18 + 1)) with 19; exact H].
      * intro H. apply (Qfloor_between 90);
          [exact H | change (inject_Z (90 + 1)) with 91; Lqa.lra].
      * reflexivity.
    + apply Qle_bool_false in E90.
      split; [| split].
      * intro H. exfalso. Lqa.lra.
      * reflexivity.
      * intros [_ H]. exfalso. Lqa.lra.
Qed.

Lemma age_of_draw_witness :
  astype_int (clip 18 90 (- (3 # 1))) = 18%Z /\
  astype_int (clip 18 90 (1234 # 10)) = 90%Z /\
  astype_int (clip 18 90 (457 # 10)) = Qfloor (457 # 10).
Proof.
  destruct (age_of_draw (- (3 # 1))) as (H1 & _).
  destruct (age_of_draw (1234 # 10)) as (_ & H2 & _).
  destruct (age_of_draw (457 # 10)) as (_ & _ & H3).
  split; [apply H1; reflexivity |].
  split; [apply H2; unfold Qle; simpl; lia |].
  apply H3. split; unfold Qle; simpl; lia.
Defined.

(** ** The split sizes of the model metadata *)

Lemma split_sizes_of (k : nat) :
  let n := Z.of_nat k in
  astype_int (inject_Z n * (75 # 100)) = (3 * n / 4)%Z /\
  astype_int (inject_Z n * (25 # 100)) = (n / 4)%Z.
Proof.
  intro n. unfold astype_int, Qmult, inject_Z; cbn [Qnum Qden].
  assert (Hn : (0 <= n)%Z) by (unfold n; lia).
  clearbody n.
  rewrite !Z.quot_div_nonneg by lia.
  change (Zpos (1 * 100)) with 100%Z.
  split; Z.div_mod_to_equations; lia.
Qed.

(** X13: the training and test sizes written to the metadata file.  They
    are three quarters and one quarter of the row count, each rounded
    down, so they add up to the row count exactly when it is a multiple of
    4 and fall one short of it otherwise. *)
Theorem split_sizes (data : DataFrame) :
  let n := Z.of_nat (frame_len data) in
  training_samples data = (3 * n / 4)%Z /\
  test_samples data = (n / 4)%Z /\
  (n mod 4 = 0 -> training_samples data + test_samples data = n)%Z /\
  (n mod 4 <> 0 -> training_samples data + test_samples data = n - 1)%Z.
Proof.
  intro n. unfold training_samples, test_samples.
  destruct (split_sizes_of (frame_len data)) as [-> ->]. fold n.
  assert (Hn : (0 <= n)%Z) by (unfold n; lia).
  clearbody n.
  repeat split; try reflexivity; intros; Z.div_mod_to_equations; lia.
Qed.

Lemma split_sizes_witness :
  let five := [("churn", StrCol ["No"; "No"; "Yes"; "No"; "No"])] in
  let four := [("churn", StrCol ["No"; "No"; "Yes"; "No"])] in
  (training_samples five + test_samples five = 4)%Z /\
  (training_samples four + test_samples four = 4)%Z.
Proof.
  intros five four.
  destruct (split_sizes five) as (_ & _ & _ & H5).
  destruct (split_sizes four) as (_ & _ & H4 & _).
  split.
  - apply H5. discriminate.
  - apply H4. reflexivity.
Defined.

(** ** The plots on any table *)

Lemma set_column_same (k : string) (c : column) (df : DataFrame) :
  get_column k df = Some c -> set_column k c df = df.
Proof.
  induction df as [|[k0 c0] df IH]; cbn [get_column set_column].
  - discriminate.
  - destruct (String.eqb k0 k) eqn:E.
    + now intros [= ->].
    + intro H. f_equal. now apply IH.
Qed.

Lemma plots_inversion (df df' : DataFrame) :
  plots df = Ok df' ->
  exists tenure sat,
    get_column "tenure_months" df = Some (IntCol tenure) /\
    get_column "customer_satisfaction" df = Some (FloatCol sat) /\
    df' = set_column "satisfaction_group"
            (CatCol (pd_cut sat [0; 2; 3; 4; 5]
                       ["Poor (1-2)"; "Fair (2-3)"; "Good (3-4)"; "Excellent (4-5)"]))
            (set_column "tenure_group"
               (CatCol (pd_cut (map inject_Z tenure) [-1; 12; 24; 48; 200]
                          ["0-1 year"; "1-2 years"; "2-4 years"; "4+ years"])) df).
Proof.
  unfold plots, get_int, get_float.
  destruct (get_column "tenure_months" df) as [[| tenure | | |]|] eqn:Et; try discriminate.
  rewrite get_set_other by discriminate.
  destruct (get_column "customer_satisfaction" df) as [[| | sat | |]|] eqn:Es;
    try discriminate.
  intros [= <-]. exists tenure, sat. repeat split.
Qed.

(** X14: plotting twice is plotting once.  When the plotting section
    succeeds on a table, running it again on the table it left behind
    succeeds and changes nothing: the two group columns are replaced by
    the same values in the same place. *)
Theorem plots_idempotent (df df' : DataFrame) :
  plots df = Ok df' -> plots df' = Ok df'.
Proof.
  intro H. destruct (plots_inversion df df' H) as (tenure & sat & Ht & Hs & ->).
  unfold plots, get_int, get_float.
  rewrite !get_set_other by discriminate. rewrite Ht.
  rewrite (set_column_same "tenure_group").
  2:{ rewrite get_set_other by discriminate. apply get_set_same. }
  rewrite !get_set_other by discriminate. rewrite Hs.
  rewrite (set_column_same "satisfaction_group"); [reflexivity |].
  apply get_set_same.
Qed.

Lemma plots_idempotent_witness :
  let df := [("tenure_months", IntCol [12; 13]%Z);
             ("customer_satisfaction", FloatCol [2; 21 # 10])] in
  let df' := (df ++ [("tenure_group", CatCol [Some "0-1 year"; Some "1-2 years"]);
                     ("satisfaction_group", CatCol [Some "Poor (1-2)"; Some "Fair (2-3)"])])%list in
  plots df = Ok df' /\ plots df' = Ok df'.
Proof.
  intros df df'.
  assert (H : plots df = Ok df') by reflexivity.
  split; [exact H | exact (plots_idempotent df df' H)].
Defined.



(** ** Seeds *)

(** X16: a seed outside [0, 2^32 - 1] stops the run at line 32, whatever
    the record count: generation fails with numpy's [ValueError] for the
    seed (also when the count is negative, which would be refused later),
    and nothing is exported. *)
Theorem invalid_seed_is_refused (G : RandomState) (n seed : Z) (g0 : rs_state G) :
  (seed < 0 \/ 2 ^ 32 <= seed)%Z ->
  generate G n seed g0 = Raise (ValueError "Seed must be between 0 and 2**32 - 1") /\
  main G n seed g0 = Raise (ValueError "Seed must be between 0 and 2**32 - 1").
Proof.
  intro Hseed.
  assert (Hv : valid_seed seed = false).
  { unfold valid_seed. destruct (Z.leb_spec 0 seed); destruct (Z.ltb_spec seed (2 ^ 32));
      try reflexivity; lia. }
  unfold main, generate, build_features, bind, np_random_seed. rewrite Hv.
  split; reflexivity.
Qed.

Lemma invalid_seed_is_refused_witness :
  generate lcg (-5) (-1) 0%Z = Raise (ValueError "Seed must be between 0 and 2**32 - 1") /\
  main lcg n_customers (2 ^ 32) 0%Z
  = Raise (ValueError "Seed must be between 0 and 2**32 - 1").
Proof.
  split.
  - apply (invalid_seed_is_refused lcg (-5) (-1) 0%Z). left. lia.
  - apply (invalid_seed_is_refused lcg n_customers (2 ^ 32) 0%Z). right. lia.
Defined.

(** ** Growing the record count *)

Lemma draw_n_prefix (G : RandomState) {A : Type} (step : rs_state G -> A * rs_state G)
      (n k : nat) (g : rs_state G) :
  fst (draw_n step n g) = firstn n (fst (draw_n step (n + k) g)).
Proof.
  revert g; induction n as [|n IH]; intro g; cbn [Nat.add draw_n firstn].
  - reflexivity.
  - destruct (step g) as [x g1]. specialize (IH g1).
    destruct (draw_n step n g1) as [xs g2].
    destruct (draw_n step (n + k) g1) as [ys g3].
    cbn [fst firstn] in *. now rewrite IH.
Qed.

Lemma draw_all_age (G : RandomState) (n : nat) (g : rs_state G) :
  d_age (fst (draw_all G n g)) = fst (draw_n (rs_normal G 45 15) n g).
Proof.
  unfold draw_all.
  repeat match goal with
         | |- context [draw_n ?s n ?g0] => destruct (draw_n s n g0) as [? ?]
         end.
  reflexivity.
Qed.

Lemma count_from_prefix (a : Z) (n k : nat) :
  count_from a n = firstn n (count_from a (n + k)).
Proof.
  revert a; induction n as [|n IH]; intro a; cbn [Nat.add count_from firstn].
  - reflexivity.
  - now rewrite <- IH.
Qed.

(** X17: what a larger record count keeps.  With the same seed, the
    identifiers and the ages of a run of [n] rows are the first [n]
    identifiers and ages of a run of [m >= n] rows: the age column is the
    first one drawn after seeding, so its first draws do not depend on
    the count. *)
Theorem ages_are_a_prefix (G : RandomState) (n m seed : Z) (g0 : rs_state G) :
  (0 < n <= m)%Z -> valid_seed seed = true ->
  exists data_n g_n data_m g_m ids_n ids_m age_n age_m,
    generate G n seed g0 = Ok (data_n, g_n) /\
    generate G m seed g0 = Ok (data_m, g_m) /\
    get_str "customer_id" data_n = Ok ids_n /\
    get_str "customer_id" data_m = Ok ids_m /\
    get_int "age" data_n = Ok age_n /\
    get_int "age" data_m = Ok age_m /\
    ids_n = firstn (Z.to_nat n) ids_m /\
    age_n = firstn (Z.to_nat n) age_m.
Proof.
  intros Hnm Hseed.
  destruct (generate_ok G n seed g0) as (us_n & g_n & Hgn & _); [lia | exact Hseed |].
  destruct (generate_ok G m seed g0) as (us_m & g_m & Hgm & _); [lia | exact Hseed |].
  cbv zeta in Hgn, Hgm.
  eexists. exists g_n. eexists. exists g_m. do 4 eexists.
  split; [exact Hgn |]. split; [exact Hgm |].
  do 4 (split; [reflexivity |]).
  assert (Hk : Z.to_nat m = (Z.to_nat n + (Z.to_nat m - Z.to_nat n))%nat) by lia.
  split.
  - unfold customer_ids, py_range.
    replace (Z.to_nat (m + 1 - 1)) with (Z.to_nat n + (Z.to_nat m - Z.to_nat n))%nat by lia.
    replace (Z.to_nat (n + 1 - 1)) with (Z.to_nat n) by lia.
    rewrite firstn_map. f_equal. apply count_from_prefix.
  - unfold age_column. rewrite !draw_all_age, firstn_map. f_equal.
    rewrite Hk. apply draw_n_prefix.
Qed.

Lemma ages_are_a_prefix_witness :
  exists data_n g_n data_m g_m age_n age_m,
    generate lcg 2 the_seed 0%Z = Ok (data_n, g_n) /\
    generate lcg 3 the_seed 0%Z = Ok (data_m, g_m) /\
    get_int "age" data_n = Ok age_n /\
    get_int "age" data_m = Ok age_m /\
    age_n = firstn 2 age_m.
Proof.
  destruct (ages_are_a_prefix lcg 2 3 the_seed 0%Z)
    as (dn & gn & dm & gm & idn & idm & an & am & H1 & H2 & _ & _ & H5 & H6 & _ & H8);
    [lia | reflexivity |].
  exists dn, gn, dm, gm, an, am. repeat split; assumption.
Defined.

(** ** Groups *)

Lemma group_of_In {A : Type} (k : string) (keys : list string) (vals : list A) (x : A) :
  In x (group_of k keys vals) -> In x vals.
Proof.
  unfold group_of. rewrite in_map_iff. intros ([k0 x0] & <- & Hin).
  apply filter_In in Hin. destruct Hin as [Hin _].
  now apply in_combine_r in Hin.
Qed.

Lemma group_of_Forall {A : Type} (P : A -> Prop) (k : string) (keys : list string)
      (vals : list A) :
  Forall P vals -> Forall P (group_of k keys vals).
Proof.
  rewrite !Forall_forall. intros H x Hx. apply H. eapply group_of_In; eassumption.
Qed.


Lemma group_sizes_yes_no {A : Type} (keys : list string) (vals : list A) :
  Forall (fun c => c = "Yes" \/ c = "No") keys ->
  List.length keys = List.length vals ->
  (List.length (group_of "Yes" keys vals) + List.length (group_of "No" keys vals)
   = List.length keys)%nat.
Proof.
  unfold group_of. intro H. revert vals.
  induction H as [|c keys [-> | ->] _ IH]; intros [|v vals] Hlen;
    cbn [List.length] in *; try discriminate; try reflexivity;
    cbn [combine filter fst String.eqb Ascii.eqb Bool.eqb map List.length];
    specialize (IH vals ltac:(lia)); lia.
Qed.

Lemma fold_left_Qplus_lower (a : Q) (xs : list Q) (acc : Q) :
  Forall (fun x => a <= x) xs ->
  a * inject_Z (Z.of_nat (List.length xs)) + acc <= fold_left Qplus xs acc.
Proof.
  intro H. revert acc. induction H as [|x xs Hx _ IH]; intro acc.
  - cbn [List.length fold_left Z.of_nat]. change (inject_Z 0) with 0. Lqa.lra.
  - cbn [fold_left]. specialize (IH (acc + x)).
    replace (Z.of_nat (List.length (x :: xs))) with (Z.of_nat (List.length xs) + 1)%Z
      by (cbn [List.length]; lia).
    rewrite inject_Z_plus. change (inject_Z 1) with 1.
    revert IH. generalize (fold_left Qplus xs (acc + x)).
    generalize (inject_Z (Z.of_nat (List.length xs))). intros L s IH.
    setoid_replace (a * (L + 1) + acc) with (a * L + acc + a) by ring.
    revert IH. generalize (a * L). intros t IH. Lqa.lra.
Qed.

Lemma fold_left_Qplus_upper (b : Q) (xs : list Q) (acc : Q) :
  Forall (fun x => x <= b) xs ->
  fold_left Qplus xs acc <= b * inject_Z (Z.of_nat (List.length xs)) + acc.
Proof.
  intro H. revert acc. induction H as [|x xs Hx _ IH]; intro acc.
  - cbn [List.length fold_left Z.of_nat]. change (inject_Z 0) with 0. Lqa.lra.
  - cbn [fold_left]. specialize (IH (acc + x)).
    replace (Z.of_nat (List.length (x :: xs))) with (Z.of_nat (List.length xs) + 1)%Z
      by (cbn [List.length]; lia).
    rewrite inject_Z_plus. change (inject_Z 1) with 1.
    revert IH. generalize (fold_left Qplus xs (acc + x)).
    generalize (inject_Z (Z.of_nat (List.length xs))). intros L s IH.
    setoid_replace (b * (L + 1) + acc) with (b * L + acc + b) by ring.
    revert IH. generalize (b * L). intros t IH. Lqa.lra.
Qed.

Lemma np_mean_lower (a : Q) (xs : list Q) (m : Q) :
  Forall (fun x => a <= x) xs -> np_mean xs = Some m -> a <= m.
Proof.
  intros H. destruct xs as [|x xs]; [discriminate |].
  cbn [np_mean]. intros [= <-].
  apply Qle_shift_div_l.
  - unfold Qlt, inject_Z; cbn [Qnum Qden List.length]. lia.
  - pose proof (fold_left_Qplus_lower a (x :: xs) 0 H) as Hs.
    change (a * inject_Z (Z.of_nat (List.length (x :: xs)))
            <= fold_left Qplus (x :: xs) 0).
    revert Hs. generalize (fold_left Qplus (x :: xs) 0).
    generalize (a * inject_Z (Z.of_nat (List.length (x :: xs)))). intros; Lqa.lra.
Qed.

Lemma np_mean_upper (b : Q) (xs : list Q) (m : Q) :
  Forall (fun x => x <= b) xs -> np_mean xs = Some m -> m <= b.
Proof.
  intros H. destruct xs as [|x xs]; [discriminate |].
  cbn [np_mean]. intros [= <-].
  apply Qle_shift_div_r.
  - unfold Qlt, inject_Z; cbn [Qnum Qden List.length]. lia.
  - pose proof (fold_left_Qplus_upper b (x :: xs) 0 H) as Hs.
    change (fold_left Qplus (x :: xs) 0
            <= b * inject_Z (Z.of_nat (List.length (x :: xs)))).
    revert Hs. generalize (fold_left Qplus (x :: xs) 0).
    generalize (b * inject_Z (Z.of_nat (List.length (x :: xs)))). intros; Lqa.lra.
Qed.

Lemma summary_mean_bounds (a b : Z) (xs : list Q) (g : string) (churn : list string)
      (m : Q) :
  Forall (fun x => inject_Z a <= x /\ x <= inject_Z b) xs ->
  option_map (np_round 2) (np_mean (group_of g churn xs)) = Some m ->
  inject_Z a <= m /\ m <= inject_Z b.
Proof.
  intros H Hm.
  destruct (np_mean (group_of g churn xs)) as [mu|] eqn:Emu; [| discriminate].
  injection Hm as <-.
  apply np_round_range.
  - apply (np_mean_lower _ (group_of g churn xs)); [| exact Emu].
    apply group_of_Forall. revert H. apply Forall_impl. tauto.
  - apply (np_mean_upper _ (group_of g churn xs)); [| exact Emu].
    apply group_of_Forall. revert H. apply Forall_impl. tauto.
Qed.

Lemma summary_mean_lower (a : Z) (xs : list Q) (g : string) (churn : list string) (m : Q) :
  Forall (fun x => inject_Z a <= x) xs ->
  option_map (np_round 2) (np_mean (group_of g churn xs)) = Some m ->
  inject_Z a <= m.
Proof.
  intros H Hm.
  destruct (np_mean (group_of g churn xs)) as [mu|] eqn:Emu; [| discriminate].
  injection Hm as <-.
  rewrite <- (np_round_integer 2 a). apply np_round_monotone.
  apply (np_mean_lower _ (group_of g churn xs)); [| exact Emu].
  now apply group_of_Forall.
Qed.

(** ** The summary statistics *)

Lemma group_of_length {A B : Type} (k : string) (keys : list string)
      (xs : list A) (ys : list B) :
  List.length keys = List.length xs -> List.length keys = List.length ys ->
  List.length (group_of k keys xs) = List.length (group_of k keys ys).
Proof.
  unfold group_of. rewrite !length_map.
  revert xs ys; induction keys as [|k0 keys IH]; intros [|x xs] [|y ys] Hx Hy;
    cbn [List.length] in *; try discriminate; try reflexivity.
  cbn [combine filter fst]. destruct (String.eqb k0 k); cbn [List.length];
    rewrite (IH xs ys) by lia; reflexivity.
Qed.

Lemma inject_Z_bounds (a b : Z) (zs : list Z) :
  Forall (fun z => (a <= z <= b)%Z) zs ->
  Forall (fun x => inject_Z a <= x /\ x <= inject_Z b) (map inject_Z zs).
Proof.
  intro H. apply Forall_map. revert H. apply Forall_impl.
  intros z [H1 H2]. split; now rewrite <- Zle_Qle.
Qed.

Lemma age_column_range (d : Draws) : Forall (fun a => (18 <= a <= 90)%Z) (age_column d).
Proof.
  unfold age_column. apply Forall_map, Forall_forall. intros x _.
  apply astype_int_range; apply (clip_range 18 90 x); unfold Qle; simpl; lia.
Qed.

Lemma tenure_column_range (d : Draws) :
  Forall (fun t => (0 <= t <= 200)%Z) (tenure_column d).
Proof.
  unfold tenure_column. apply Forall_map, Forall_forall. intros x _.
  apply astype_int_range; apply (clip_range 0 200 x); unfold Qle; simpl; lia.
Qed.

Lemma total_column_nonneg (d : Draws) : Forall (fun c => inject_Z 0 <= c) (total_column d).
Proof.
  unfold total_column. apply Forall_map, Forall_forall. intros x _.
  apply np_round_nonneg, clip_lower_range.
Qed.

Lemma tickets_column_nonneg (d : Draws) :
  Forall (fun x => inject_Z 0 <= x) (map inject_Z (tickets_column d)).
Proof.
  unfold tickets_column. apply Forall_map, Forall_map, Forall_forall. intros x _.
  rewrite <- Zle_Qle. apply N2Z.is_nonneg.
Qed.

(** X18: the summary statistics of lines 340-351.  On a generated table
    the two group sizes add up to the number of rows; a group that has
    rows has a mean for every summarised column; and the rounded means
    stay in the ranges of their columns: mean age in [18, 90], mean tenure
    in [0, 200], mean total charges and mean support tickets at least 0. *)
Theorem summary_statistics_in_range (G : RandomState) (n seed : Z) (g0 : rs_state G) :
  (0 < n)%Z -> valid_seed seed = true ->
  exists data g1 yes no,
    generate G n seed g0 = Ok (data, g1) /\
    summary_count "Yes" data = Ok yes /\
    summary_count "No" data = Ok no /\
    (yes + no = Z.to_nat n)%nat /\
    (forall g k, summary_count g data = Ok (S k) ->
       exists m, summary_mean "age" g data = Ok (Some m)) /\
    (forall g m, summary_mean "age" g data = Ok (Some m) -> 18 <= m /\ m <= 90) /\
    (forall g m, summary_mean "tenure_months" g data = Ok (Some m) ->
       0 <= m /\ m <= 200) /\
    (forall g m, summary_mean "total_charges" g data = Ok (Some m) -> 0 <= m) /\
    (forall g m, summary_mean "support_tickets" g data = Ok (Some m) -> 0 <= m).
Proof.
  intros Hn Hseed.
  destruct (generate_ok G n seed g0) as (us & g1 & Hgen & Hd & Hu & _);
    [lia | exact Hseed |].
  cbv zeta in Hgen, Hd.
  set (d := fst (draw_all G (Z.to_nat n) (rs_seed G seed))) in *.
  pose proof (churn_column_length _ d us Hd Hu) as Hlen.
  assert (Hyn : Forall (fun c => c = "Yes" \/ c = "No") (churn_column d us)).
  { unfold churn_column. apply map2_Forall. intros; apply churn_label_cases. }
  assert (Hage : List.length (age_column d) = Z.to_nat n).
  { unfold age_column. rewrite length_map. unfold draws_length in Hd. tauto. }
  exists (final_frame n d us), g1,
    (List.length (group_of "Yes" (churn_column d us) (churn_column d us))),
    (List.length (group_of "No" (churn_column d us) (churn_column d us))).
  split; [exact Hgen |]. split; [reflexivity |]. split; [reflexivity |].
  split; [rewrite group_sizes_yes_no by auto; exact Hlen |].
  split.
  { intros g k Hk.
    change (summary_count g (final_frame n d us))
      with (Ok (List.length (group_of g (churn_column d us) (churn_column d us)))) in Hk.
    injection Hk as Hk.
    change (summary_mean "age" g (final_frame n d us))
      with (Ok (option_map (np_round 2)
                  (np_mean (group_of g (churn_column d us) (map inject_Z (age_column d)))))).
    rewrite (group_of_length g _ _ (map inject_Z (age_column d))) in Hk
      by (rewrite ?length_map; congruence).
    destruct (group_of g (churn_column d us) (map inject_Z (age_column d)));
      [discriminate Hk |].
    eexists. reflexivity. }
  split.
  { intros g m H.
    change (summary_mean "age" g (final_frame n d us))
      with (Ok (option_map (np_round 2)
                  (np_mean (group_of g (churn_column d us) (map inject_Z (age_column d))))))
      in H.
    injection H as H.
    apply (summary_mean_bounds 18 90 _ _ _ _ (inject_Z_bounds _ _ _ (age_column_range d)) H). }
  split.
  { intros g m H.
    change (summary_mean "tenure_months" g (final_frame n d us))
      with (Ok (option_map (np_round 2)
                  (np_mean (group_of g (churn_column d us)
                              (map inject_Z (tenure_column d))))))
      in H.
    injection H as H.
    apply (summary_mean_bounds 0 200 _ _ _ _
             (inject_Z_bounds _ _ _ (tenure_column_range d)) H). }
  split.
  { intros g m H.
    change (summary_mean "total_charges" g (final_frame n d us))
      with (Ok (option_map (np_round 2)
                  (np_mean (group_of g (churn_column d us) (total_column d)))))
      in H.
    injection H as H.
    apply (summary_mean_lower 0 _ _ _ _ (total_column_nonneg d) H). }
  { intros g m H.
    change (summary_mean "support_tickets" g (final_frame n d us))
      with (Ok (option_map (np_round 2)
                  (np_mean (group_of g (churn_column d us)
                              (map inject_Z (tickets_column d))))))
      in H.
    injection H as H.
    apply (summary_mean_lower 0 _ _ _ _ (tickets_column_nonneg d) H). }
Qed.

Lemma summary_statistics_in_range_witness :
  exists data g1 yes no,
    generate lcg 4 the_seed 0%Z = Ok (data, g1) /\
    summary_count "Yes" data = Ok yes /\
    summary_count "No" data = Ok no /\
    (yes + no = 4)%nat.
Proof.
  destruct (summary_statistics_in_range lcg 4 the_seed 0%Z)
    as (data & g1 & yes & no & Hg & Hy & Hno & Hs & _);
    [lia | reflexivity |].
  exists data, g1, yes, no. repeat split; assumption.
Defined.

(** ** Shares by group *)





(** ** The simulated ROC curves *)

Lemma exp_monotone (x y : R) : (x <= y)%R -> (exp x <= exp y)%R.
Proof.
  intros [H| ->]; [left; now apply exp_increasing | right; reflexivity].
Qed.

Lemma ln_nonpos (x : R) : (0 < x <= 1)%R -> (ln x <= 0)%R.
Proof.
  intros [H0 [H1| ->]].
  - left. rewrite <- ln_1. now apply ln_increasing.
  - right. apply ln_1.
Qed.

Lemma Rpower_exponent_antitone (x a b : R) :
  (0 < x <= 1)%R -> (a <= b)%R -> (Rpower x b <= Rpower x a)%R.
Proof.
  intros Hx Hab. unfold Rpower. apply exp_monotone.
  pose proof (ln_nonpos x Hx) as Hl.
  apply Rmult_le_compat_neg_l with (r := ln x) in Hab; [| exact Hl].
  rewrite (Rmult_comm b), (Rmult_comm a). exact Hab.
Qed.

Lemma np_power_bounds (x a b : R) :
  (0 <= x <= 1)%R -> (0 < a)%R -> (a <= b)%R -> (b <= 1)%R ->
  (x <= np_power x b /\ np_power x b <= np_power x a /\ np_power x a <= 1)%R.
Proof.
  intros [H0 H1] Ha Hab Hb. unfold np_power.
  destruct (Req_dec_T x 0) as [-> | Hne].
  - lra.
  - assert (Hx : (0 < x <= 1)%R) by lra.
    split; [| split].
    + rewrite <- (Rpower_1 x) at 1 by lra. now apply Rpower_exponent_antitone.
    + now apply Rpower_exponent_antitone.
    + rewrite <- (Rpower_O x) by lra. apply Rpower_exponent_antitone; [exact Hx | lra].
Qed.

Lemma fpr_range : forallb (fun x => Qle_bool 0 x && Qle_bool x 1) fpr = true.
Proof. vm_compute. reflexivity. Qed.

(** X20: the simulated ROC curves of lines 306-318, read in real
    arithmetic.  The grid has 100 points from 0 to 1.  At every grid
    point each curve lies between the diagonal and 1, and the curves are
    ordered like the AUC values printed in their labels: the random forest
    curve ([x ** 0.38]) is on or above the LASSO curve ([x ** 0.43]),
    which is on or above the logistic regression curve ([x ** 0.45]).
    All three start at 0 and end at 1. *)
Theorem roc_curves_ordered :
  List.length fpr = 100%nat /\
  (exists first last,
     nth_error fpr 0 = Some first /\ first == 0 /\
     nth_error fpr 99 = Some last /\ last == 1) /\
  (forall e, np_power 0 e = 0%R) /\
  (forall e, np_power 1 e = 1%R) /\
  (forall x, In x fpr ->
     let X := Q2R x in
     (0 <= X <= 1)%R /\
     (X <= np_power X 0.45)%R /\
     (np_power X 0.45 <= np_power X 0.43)%R /\
     (np_power X 0.43 <= np_power X 0.38)%R /\
     (np_power X 0.38 <= 1)%R).
Proof.
  split; [reflexivity |].
  split.
  { do 2 eexists. split; [reflexivity |]. split; [reflexivity |].
    split; reflexivity. }
  split.
  { intro e. unfold np_power. destruct (Req_dec_T 0 0); [reflexivity | congruence]. }
  split.
  { intro e. unfold np_power. destruct (Req_dec_T 1 0) as [H|_]; [lra |].
    unfold Rpower. rewrite ln_1, Rmult_0_r. apply exp_0. }
  intros x Hin X.
  assert (HX : (0 <= X <= 1)%R).
  { pose proof fpr_range as H. rewrite forallb_forall in H.
    specialize (H x Hin). apply andb_true_iff in H. destruct H as [H0 H1].
    apply Qle_bool_iff, Qle_Rle in H0. apply Qle_bool_iff, Qle_Rle in H1.
    replace (Q2R 0) with 0%R in H0 by (unfold Q2R; simpl; lra).
    replace (Q2R 1) with 1%R in H1 by (unfold Q2R; simpl; lra).
    split; assumption. }
  split; [exact HX |].
  destruct (np_power_bounds X 0.43 0.45 HX) as (A1 & A2 & _); [lra | lra | lra |].
  destruct (np_power_bounds X 0.38 0.43 HX) as (_ & B2 & B3); [lra | lra | lra |].
  repeat split; assumption.
Qed.

Lemma roc_curves_ordered_witness :
  (np_power (Q2R (nth 33 fpr 0%Q)) 0.45 <= np_power (Q2R (nth 33 fpr 0%Q)) 0.38)%R.
Proof.
  destruct roc_curves_ordered as (_ & _ & _ & _ & H).
  destruct (H (nth 33 fpr 0)) as (_ & _ & H1 & H2 & _).
  - apply nth_In. vm_compute. lia.
  - eapply Rle_trans; eassumption.
Defined.

(** ** Padding with zeros *)

Lemma length_append (s1 s2 : string) :
  String.length (s1 ++ s2) = (String.length s1 + String.length s2)%nat.
Proof. induction s1 as [|c s1 IH]; cbn [append String.length]; [reflexivity | now rewrite IH]. Qed.

Lemma length_repeat_char (c : ascii) (k : nat) : String.length (repeat_char c k) = k.
Proof. induction k as [|k IH]; cbn [repeat_char String.length]; [reflexivity | now rewrite IH]. Qed.

(** X21: [zfill] pads and never cuts.  The result is as long as the
    longer of the width and the string; a string that already has the
    width comes back unchanged, and otherwise only zeros are added. *)
Theorem zfill_pads (w : nat) (s : string) :
  String.length (zfill w s) = Nat.max w (String.length s) /\
  (w <= String.length s -> zfill w s = s)%nat /\
  (forall c rest, s = String c rest -> is_digit c = true ->
     zfill w s = (repeat_char "0" (w - String.length s) ++ s)%string).
Proof.
  split; [| split].
  - unfold zfill. destruct s as [|c rest].
    + rewrite length_repeat_char. cbn [String.length]. lia.
    + destruct (Ascii.eqb c "+" || Ascii.eqb c "-")%bool;
        cbn [String.length]; rewrite length_append, length_repeat_char;
        cbn [String.length]; lia.
  - intro Hw. unfold zfill.
    replace (w - String.length s)%nat with 0%nat by lia. cbn [repeat_char append].
    destruct s as [|c rest]; [reflexivity |].
    now destruct (Ascii.eqb c "+" || Ascii.eqb c "-")%bool.
  - intros c rest -> Hd. unfold zfill.
    destruct (Ascii.eqb c "+") eqn:E1; [apply Ascii.eqb_eq in E1; subst; discriminate Hd |].
    destruct (Ascii.eqb c "-") eqn:E2; [apply Ascii.eqb_eq in E2; subst; discriminate Hd |].
    reflexivity.
Qed.

Lemma zfill_pads_witness :
  zfill 5 "123456" = "123456" /\ zfill 5 "42" = "00042".
Proof.
  destruct (zfill_pads 5 "123456") as (_ & H1 & _).
  destruct (zfill_pads 5 "42") as (_ & _ & H2).
  split; [apply H1; simpl; lia |].
  rewrite (H2 "4"%char "2" eq_refl eq_refl). reflexivity.
Defined.

(** ** Selecting rows *)

Lemma mask_filter_length {A : Type} (mask : list bool) (xs : list A) :
  List.length mask = List.length xs ->
  List.length (mask_filter mask xs) = count_true mask.
Proof.
  unfold mask_filter, count_true. rewrite length_map.
  revert xs; induction mask as [|b mask IH]; intros [|x xs] H;
    cbn [List.length] in *; try discriminate; try reflexivity.
  cbn [combine filter fst]. destruct b; cbn [List.length]; rewrite (IH xs) by lia;
    reflexivity.
Qed.

Lemma mask_filter_le (bound : Z) (xs : list Z) :
  mask_filter (le_mask bound xs) xs = filter (fun x => (x <=? bound)%Z) xs.
Proof.
  unfold mask_filter, le_mask.
  induction xs as [|x xs IH]; cbn [map combine filter fst]; [reflexivity |].
  destruct (x <=? bound)%Z; cbn [map snd]; now rewrite IH.
Qed.

Lemma get_column_frame_filter (mask : list bool) (k : string) (df : DataFrame) :
  get_column k (frame_filter mask df) = option_map (column_filter mask) (get_column k df).
Proof.
  unfold frame_filter.
  induction df as [|[k0 c0] df IH]; cbn [map get_column fst snd]; [reflexivity |].
  destruct (String.eqb k0 k); [reflexivity | exact IH].
Qed.

Lemma column_filter_length (mask : list bool) (c : column) :
  List.length mask = column_length c ->
  column_length (column_filter mask c) = count_true mask.
Proof. destruct c; cbn [column_filter column_length]; apply mask_filter_length. Qed.

(** X22: the rows with at most ten support tickets (line 209).  On a
    table whose columns all have the same number of rows, the selection
    keeps the column names in their order, keeps all columns aligned
    (each has as many rows as there are tickets values of at most 10),
    keeps those rows in their order, and leaves no ticket count above 10.
    Without a [support_tickets] column it is a [KeyError]. *)
Theorem low_ticket_selection (data : DataFrame) (k : nat) :
  frame_rows k data ->
  (get_column "support_tickets" data = None ->
   low_ticket_rows data = Raise (KeyError "support_tickets")) /\
  (forall tickets, get_column "support_tickets" data = Some (IntCol tickets) ->
   exists selected,
     low_ticket_rows data = Ok selected /\
     columns selected = columns data /\
     frame_rows (List.length (filter (fun x => (x <=? 10)%Z) tickets)) selected /\
     get_int "support_tickets" selected = Ok (filter (fun x => (x <=? 10)%Z) tickets) /\
     Forall (fun x => (x <= 10)%Z) (filter (fun x => (x <=? 10)%Z) tickets)).
Proof.
  intro Hrows. split.
  - unfold low_ticket_rows, get_int. now intros ->.
  - intros tickets Ht. unfold low_ticket_rows, get_int. rewrite Ht.
    eexists. split; [reflexivity |].
    assert (Hlen : List.length tickets = k).
    { unfold frame_rows in Hrows. rewrite Forall_forall in Hrows.
      assert (Hin : In ("support_tickets", IntCol tickets) data).
      { clear - Ht. induction data as [|[k0 c0] df IH]; cbn [get_column] in Ht;
          [discriminate |].
        destruct (String.eqb k0 "support_tickets") eqn:Ek.
        - apply String.eqb_eq in Ek. injection Ht as ->. subst. now left.
        - right. now apply IH. }
      exact (Hrows _ Hin). }
    assert (Hcount : count_true (le_mask 10 tickets)
                     = List.length (filter (fun x => (x <=? 10)%Z) tickets)).
    { rewrite <- mask_filter_le. symmetry. apply mask_filter_length.
      unfold le_mask. apply length_map. }
    split; [| split; [| split]].
    + unfold columns, frame_filter. rewrite map_map. reflexivity.
    + unfold frame_rows, frame_filter in *. apply Forall_map.
      revert Hrows. apply Forall_impl. intros [k0 c0] Hc. cbn [snd] in *.
      rewrite column_filter_length; [exact Hcount |].
      unfold le_mask. rewrite length_map. congruence.
    + rewrite get_column_frame_filter, Ht. cbn [option_map column_filter].
      now rewrite mask_filter_le.
    + apply Forall_forall. intros x Hx. apply filter_In in Hx.
      destruct Hx as [_ Hx]. now apply Z.leb_le.
Qed.

Lemma low_ticket_selection_witness :
  low_ticket_rows [("support_tickets", IntCol [2; 11; 10]%Z); ("churn", StrCol ["No"; "Yes"; "No"])]
  = Ok [("support_tickets", IntCol [2; 10]%Z); ("churn", StrCol ["No"; "No"])].
Proof.
  destruct (low_ticket_selection
              [("support_tickets", IntCol [2; 11; 10]%Z); ("churn", StrCol ["No"; "Yes"; "No"])]
              3) as (_ & H).
  - repeat constructor.
  - destruct (H [2; 11; 10]%Z eq_refl) as (sel & Hs & _). reflexivity.
Defined.

(** ** Total charges *)



(** ** Rows and columns *)

Lemma zip_rows_nth_error (t : list Z) (m : list Q) (c : list string) (s : list Z)
      (cs : list Q) (i : nat) (row : Row Q) :
  nth_error (zip_rows t m c s cs) i = Some row <->
  nth_error t i = Some (tenure_months row) /\
  nth_error m i = Some (monthly_charges row) /\
  nth_error c i = Some (contract_type row) /\
  nth_error s i = Some (support_tickets row) /\
  nth_error cs i = Some (customer_satisfaction row).
Proof.
  revert t m c s cs; induction i as [|i IH];
    intros [|t0 t] [|m0 m] [|c0 c] [|s0 s] [|cs0 cs];
    cbn [zip_rows nth_error];
    try (split; [discriminate | intros (? & ? & ? & ? & ?); discriminate]).
  - split.
    + intros [= <-]. cbn. repeat split.
    + destruct row as [rt rm rc rs rcs]. cbn.
      intros ([= ->] & [= ->] & [= ->] & [= ->] & [= ->]). reflexivity.
  - apply IH.
Qed.

(** X24: the row that [calculate_churn_probability] is applied to.  On a
    table that has the five columns of the churn model, [row] is the
    [i]-th row exactly when its five fields are the [i]-th entries of
    those columns; a table that lacks one of them has no rows to apply the
    function to, but a [KeyError]. *)
Theorem rows_match_columns (df : DataFrame) (t : list Z) (m : list Q) (c : list string)
        (s : list Z) (cs : list Q) :
  get_column "tenure_months" df = Some (IntCol t) ->
  get_column "monthly_charges" df = Some (FloatCol m) ->
  get_column "contract_type" df = Some (StrCol c) ->
  get_column "support_tickets" df = Some (IntCol s) ->
  get_column "customer_satisfaction" df = Some (FloatCol cs) ->
  exists rows,
    iter_rows df = Ok rows /\
    forall i row,
      nth_error rows i = Some row <->
      nth_error t i = Some (tenure_months row) /\
      nth_error m i = Some (monthly_charges row) /\
      nth_error c i = Some (contract_type row) /\
      nth_error s i = Some (support_tickets row) /\
      nth_error cs i = Some (customer_satisfaction row).
Proof.
  intros Ht Hm Hc Hs Hcs. exists (zip_rows t m c s cs). split.
  - unfold iter_rows, get_int, get_float, get_str. now rewrite Ht, Hm, Hc, Hs, Hcs.
  - intros i row. apply zip_rows_nth_error.
Qed.

Lemma rows_match_columns_witness :
  iter_rows [ ("tenure_months", IntCol [12%Z]); ("monthly_charges", FloatCol [70]);
              ("contract_type", StrCol ["One year"]); ("support_tickets", IntCol [2%Z]);
              ("customer_satisfaction", FloatCol [3]) ]
  = Ok [mkRow 12%Z 70 "One year" 2%Z 3].
Proof.
  destruct (rows_match_columns
              [ ("tenure_months", IntCol [12%Z]); ("monthly_charges", FloatCol [70]);
                ("contract_type", StrCol ["One year"]); ("support_tickets", IntCol [2%Z]);
                ("customer_satisfaction", FloatCol [3]) ]
              [12%Z] [70] ["One year"] [2%Z] [3])
    as (rows & Hr & _); reflexivity.
Defined.
